(** * Understanding/plot_analysis.py: a shallow embedding

    The script holds literal timing tables, derives a few elementwise
    ratios from them, hands everything to the charting library and prints
    progress lines.  The embedding follows the source function by function:

    - Python values the script manipulates (numbers, NumPy arrays, the
      dataset dictionary, exceptions) are Rocq data;
    - the charting library and [print] are effects, recorded as a trace of
      events; a library call may raise, which the environment decides, and
      only a call that returned is recorded;
    - the dataset is a dictionary object on a heap, reached by reference;
      the arrays in it are values, since neither the script nor the library
      writes into an array;
    - arithmetic on binary64 numbers goes through the interface
      [Float64Ops], with one instance on Rocq's primitive floats (the
      numbers the interpreter computes with) and one on the reals (used
      where [log2] and [**] have to be reasoned about). *)

From Stdlib Require Import ZArith List Floats Reals Lra Lia.
From stdpp Require Import gmap strings.

Set Warnings "-inexact-float,-register-all".

(** ** Python exceptions *)

Module Py.

(** The part of the built-in exception hierarchy the script can meet.
    [LibraryError] stands for any other class derived from [Exception]
    that the charting stack raises. *)
Inductive exc_class :=
| BaseException
| KeyboardInterrupt
| SystemExit
| Exception
| ImportError
| ModuleNotFoundError
| LookupError
| KeyError
| IndexError
| ValueError
| LibraryError (name : string).

Definition parent (c : exc_class) : option exc_class :=
  match c with
  | BaseException => None
  | KeyboardInterrupt | SystemExit | Exception => Some BaseException
  | ImportError | LookupError | ValueError | LibraryError _ => Some Exception
  | ModuleNotFoundError => Some ImportError
  | KeyError | IndexError => Some LookupError
  end.

Definition same_class (c d : exc_class) : bool :=
  match c, d with
  | BaseException, BaseException
  | KeyboardInterrupt, KeyboardInterrupt
  | SystemExit, SystemExit
  | Exception, Exception
  | ImportError, ImportError
  | ModuleNotFoundError, ModuleNotFoundError
  | LookupError, LookupError
  | KeyError, KeyError
  | IndexError, IndexError
  | ValueError, ValueError => true
  | LibraryError a, LibraryError b => String.eqb a b
  | _, _ => false
  end.

(** [issubclass c d]: [d] is [c] or one of its ancestors.  The hierarchy
    above is three levels deep below [BaseException]. *)
Fixpoint issubclass_fuel (fuel : nat) (c d : exc_class) : bool :=
  same_class c d ||
  match fuel, parent c with
  | S k, Some p => issubclass_fuel k p d
  | _, _ => false
  end.

Definition issubclass : exc_class -> exc_class -> bool := issubclass_fuel 4.

Record exn := Exn { exn_class : exc_class; exn_msg : string }.

Definition isinstance (e : exn) (c : exc_class) : bool :=
  issubclass (exn_class e) c.

(** What a Python computation hands back: a value or a raised exception. *)
Inductive result (A : Type) :=
| Ok (a : A)
| Raise (e : exn).
Arguments Ok {A} a.
Arguments Raise {A} e.

Definition rbind {A B} (r : result A) (k : A -> result B) : result B :=
  match r with
  | Ok a => k a
  | Raise e => Raise e
  end.

(** Literals of the source: an integer literal, or a decimal literal
    [m * 10^e] (so [0.018] is [PyFloat 18 (-3)]). *)
Inductive pynum :=
| PyInt (z : Z)
| PyFloat (m e : Z).

(** [s * k] on a string. *)
Fixpoint str_repeat (s : string) (k : nat) : string :=
  match k with
  | O => EmptyString
  | S k' => s ++ str_repeat s k'
  end.

(** Index normalisation of [a[i]]: a negative index counts from the end;
    anything outside the sequence is an [IndexError]. *)
Definition norm_index (len : nat) (i : Z) : option nat :=
  let n := Z.of_nat len in
  let j := if (i <? 0)%Z then (i + n)%Z else i in
  if ((0 <=? j) && (j <? n))%Z then Some (Z.to_nat j) else None.

(** Bound normalisation of [a[start:stop]] (step 1): a missing bound is
    the matching end, a negative bound counts from the end, and every
    bound is clipped into [0..len]. *)
Definition norm_bound (len : nat) (dflt : nat) (b : option Z) : nat :=
  match b with
  | None => dflt
  | Some i =>
      let n := Z.of_nat len in
      let j := if (i <? 0)%Z then (i + n)%Z else i in
      Z.to_nat (Z.min n (Z.max 0 j))
  end.

Definition slice {A} (l : list A) (start stop : option Z) : list A :=
  let lo := norm_bound (length l) 0 start in
  let hi := norm_bound (length l) (length l) stop in
  firstn (hi - lo) (skipn lo l).

End Py.
Export Py.

(** ** Binary64 arithmetic as an interface *)

Class Float64Ops (F : Type) := {
  of_int : Z -> F;            (* int -> float64, round to nearest *)
  fadd : F -> F -> F;
  fsub : F -> F -> F;
  fmul : F -> F -> F;
  fdiv : F -> F -> F;
  fpow : F -> F -> F;         (* [x ** y] on floats *)
  flog2 : F -> F;             (* [np.log2] on a float *)
}.

(** The interpreter's numbers.  [fpow] and [flog2] come from the C maths
    library, which is no part of the repository: they are parameters. *)
Module Binary64.

Definition of_Z (z : Z) : float :=
  if (z =? - 2 ^ 63)%Z then (-9223372036854775808)%float
  else if (0 <=? z)%Z then PrimFloat.of_uint63 (Uint63.of_Z z)
  else PrimFloat.opp (PrimFloat.of_uint63 (Uint63.of_Z (- z))).

Definition ops (libm_pow : float -> float -> float)
               (libm_log2 : float -> float) : Float64Ops float :=
  {| of_int := of_Z;
     fadd := PrimFloat.add;
     fsub := PrimFloat.sub;
     fmul := PrimFloat.mul;
     fdiv := PrimFloat.div;
     fpow := libm_pow;
     flog2 := libm_log2 |}.

(** The operations with the two library functions left out (they answer
    NaN): enough wherever only the arithmetic of the processor matters. *)
Definition arithmetic : Float64Ops float :=
  ops (fun _ _ => PrimFloat.nan) (fun _ => PrimFloat.nan).

End Binary64.

(** The same operations on the reals: binary64 without rounding.  [Rpower]
    agrees with [**] on positive bases, the only ones the script uses. *)
Module Ideal.

Definition log2 (x : R) : R := (ln x / ln 2)%R.

Definition ops : Float64Ops R :=
  {| of_int := IZR;
     fadd := Rplus;
     fsub := Rminus;
     fmul := Rmult;
     fdiv := Rdiv;
     fpow := Rpower;
     flog2 := log2 |}.

End Ideal.

(** ** NumPy arrays *)

Module Np.
Section Arrays.
Context {F : Type} {ops : Float64Ops F}.

(** An array element: an [int64] or a [float64]. *)
Inductive scalar :=
| SInt (z : Z)
| SFloat (x : F).

(** One-dimensional arrays of the two dtypes the script builds. *)
Inductive ndarray :=
| IntArray (l : list Z)
| FloatArray (l : list F).

Definition to_float (s : scalar) : F :=
  match s with
  | SInt z => of_int z
  | SFloat x => x
  end.

(** Value of a literal.  A decimal literal [m * 10^e] with [e < 0] is the
    quotient of two exactly representable integers, which binary64
    division rounds correctly (mantissa below [2^53], at most 22 digits
    after the point: every literal of the script). *)
Definition literal (n : pynum) : scalar :=
  match n with
  | PyInt z => SInt z
  | PyFloat m e =>
      SFloat (if (0 <=? e)%Z then of_int (m * 10 ^ e)
              else fdiv (of_int m) (of_int (10 ^ (- e))))
  end.

Definition is_int_literal (n : pynum) : bool :=
  match n with PyInt _ => true | PyFloat _ _ => false end.

Definition int_of_literal (n : pynum) : Z :=
  match n with PyInt z => z | PyFloat _ _ => 0%Z end.

(** [np.array([...])]: [int64] when every literal is an integer, else
    [float64] with the integers converted.  The empty list has no literal
    to take a type from and gives numpy's default, [float64]. *)
Definition array (l : list pynum) : ndarray :=
  match l with
  | [] => FloatArray []
  | _ :: _ =>
      if forallb is_int_literal l then IntArray (map int_of_literal l)
      else FloatArray (map (fun n => to_float (literal n)) l)
  end.

Definition elems (a : ndarray) : list scalar :=
  match a with
  | IntArray l => map SInt l
  | FloatArray l => map SFloat l
  end.

Definition floats (a : ndarray) : list F := map to_float (elems a).

Definition len (a : ndarray) : nat := length (elems a).

Definition is_int_array (a : ndarray) : bool :=
  match a with IntArray _ => true | FloatArray _ => false end.

Definition is_int_scalar (s : scalar) : bool :=
  match s with SInt _ => true | SFloat _ => false end.

(** [a[i]] *)
Definition getitem (a : ndarray) (i : Z) : result scalar :=
  match norm_index (len a) i with
  | Some k =>
      match nth_error (elems a) k with
      | Some s => Ok s
      | None => Raise (Exn IndexError "index out of bounds")
      end
  | None => Raise (Exn IndexError "index out of bounds")
  end.

(** [a[start:stop]] *)
Definition getslice (a : ndarray) (start stop : option Z) : ndarray :=
  match a with
  | IntArray l => IntArray (slice l start stop)
  | FloatArray l => FloatArray (slice l start stop)
  end.

(** *** Arithmetic *)

Inductive binop := Add | Sub | Mul | TrueDiv | Pow.

Definition wrap64 (z : Z) : Z := ((z + 2 ^ 63) mod 2 ^ 64 - 2 ^ 63)%Z.

Definition float_op (op : binop) : F -> F -> F :=
  match op with
  | Add => fadd
  | Sub => fsub
  | Mul => fmul
  | TrueDiv => fdiv
  | Pow => fpow
  end.

Definition int_op (op : binop) (a b : Z) : result Z :=
  match op with
  | Add => Ok (wrap64 (a + b))
  | Sub => Ok (wrap64 (a - b))
  | Mul => Ok (wrap64 (a * b))
  | Pow =>
      if (b <? 0)%Z
      then Raise (Exn ValueError
                      "Integers to negative integer powers are not allowed.")
      else Ok (wrap64 (a ^ b))
  | TrueDiv => Ok 0%Z   (* not reached: [/] never stays in int64 *)
  end.

(** [x op y] on two elements: [/] is always a float division; the other
    operators stay in [int64] on two integers and are float operations
    otherwise. *)
Definition scalar_op (op : binop) (x y : scalar) : result scalar :=
  match op, x, y with
  | TrueDiv, _, _ => Ok (SFloat (fdiv (to_float x) (to_float y)))
  | _, SInt a, SInt b => rbind (int_op op a b) (fun z => Ok (SInt z))
  | _, _, _ => Ok (SFloat (float_op op (to_float x) (to_float y)))
  end.

Fixpoint mapM {A B} (f : A -> result B) (l : list A) : result (list B) :=
  match l with
  | [] => Ok []
  | x :: l' =>
      rbind (f x) (fun y => rbind (mapM f l') (fun ys => Ok (y :: ys)))
  end.

Definition int_of_scalar (s : scalar) : Z :=
  match s with SInt z => z | SFloat _ => 0%Z end.

(** Result array of dtype [int64] ([int_dtype = true]) or [float64]. *)
Definition pack (int_dtype : bool) (l : list scalar) : ndarray :=
  if int_dtype then IntArray (map int_of_scalar l)
  else FloatArray (map to_float l).

Definition int_result (op : binop) (a b : bool) : bool :=
  match op with
  | TrueDiv => false
  | _ => a && b
  end.

(** Broadcasting of two one-dimensional operands: equal lengths pair up,
    a length-one operand is repeated, anything else is a [ValueError]. *)
Definition broadcast (xs ys : list scalar) : result (list (scalar * scalar)) :=
  if Nat.eqb (length xs) (length ys) then Ok (zip xs ys)
  else match xs, ys with
       | [x], _ => Ok (map (pair x) ys)
       | _, [y] => Ok (map (fun x => (x, y)) xs)
       | _, _ => Raise (Exn ValueError
                            "operands could not be broadcast together")
       end.

(** array [op] array *)
Definition arr_arr (op : binop) (a b : ndarray) : result ndarray :=
  rbind (broadcast (elems a) (elems b)) (fun ps =>
  rbind (mapM (fun p => scalar_op op (fst p) (snd p)) ps) (fun rs =>
  Ok (pack (int_result op (is_int_array a) (is_int_array b)) rs))).

(** array [op] scalar *)
Definition arr_sc (op : binop) (a : ndarray) (s : scalar) : result ndarray :=
  rbind (mapM (fun x => scalar_op op x s) (elems a)) (fun rs =>
  Ok (pack (int_result op (is_int_array a) (is_int_scalar s)) rs)).

(** scalar [op] array *)
Definition sc_arr (op : binop) (s : scalar) (a : ndarray) : result ndarray :=
  rbind (mapM (fun x => scalar_op op s x) (elems a)) (fun rs =>
  Ok (pack (int_result op (is_int_scalar s) (is_int_array a)) rs)).

(** *** Constructors *)

(** [np.arange(n)] *)
Definition arange (n : nat) : ndarray :=
  IntArray (map Z.of_nat (seq 0 n)).

(** [np.linspace(start, stop, num)]: [i * step + start] with
    [step = (stop - start) / (num - 1)], the last sample set to [stop]. *)
Definition linspace (start stop : scalar) (num : nat) : ndarray :=
  let a := to_float start in
  let b := to_float stop in
  let delta := fsub b a in
  match num with
  | O => FloatArray []
  | S O => FloatArray [fadd (fmul (of_int 0) delta) a]
  | S div =>
      let step := fdiv delta (of_int (Z.of_nat div)) in
      FloatArray
        (map (fun i => fadd (fmul (of_int (Z.of_nat i)) step) a) (seq 0 div)
         ++ [b])
  end.

(** [np.logspace(start, stop, num)]: ten to the power of the linspace. *)
Definition logspace (start stop : scalar) (num : nat) : ndarray :=
  FloatArray (map (fpow (of_int 10)) (floats (linspace start stop num))).

(** [np.log2(a)] *)
Definition log2 (a : ndarray) : ndarray :=
  FloatArray (map flog2 (floats a)).

(** [np.ones_like(a)] *)
Definition ones_like (a : ndarray) : ndarray :=
  match a with
  | IntArray l => IntArray (map (fun _ => 1%Z) l)
  | FloatArray l => FloatArray (map (fun _ => of_int 1) l)
  end.

End Arrays.
Arguments scalar F : clear implicits.
Arguments ndarray F : clear implicits.
End Np.

(** ** Effects: the trace, the heap and the monad of the script *)

Module Eff.
Section Effects.
Context {F : Type} {ops : Float64Ops F}.

(** A formatted string: literal text, [{v:spec}] on a number, or [{e}]
    on a caught exception.  Rendering digits is left to the reader of
    the trace. *)
Inductive piece :=
| Lit (s : string)
| Fmt (v : Np.scalar F) (spec : string)
| FmtExn (e : exn).

Definition text := list piece.

(** Arguments handed to the charting library. *)
Inductive arg :=
| ALit (n : pynum)
| AStr (s : string)
| ABool (b : bool)
| AScalar (s : Np.scalar F)
| AArr (a : Np.ndarray F)
| AText (t : text)
| ATuple (l : list arg)
| AList (l : list arg)
| ADict (l : list (string * arg)).

(** What the outside world sees: a line on standard output, or a call of
    the charting library that returned. *)
Inductive event :=
| Print (t : text)
| Call (fn : string) (args : list arg) (kwargs : list (string * arg)).

(** The dataset is a [dict] object on the heap, reached by reference. *)
Definition loc := nat.

Record world := World {
  heap : gmap loc (gmap string (Np.ndarray F));
  next_loc : loc;
  trace : list event;
}.

(** What the script cannot control: whether a module can be imported,
    and whether a library call raises (given everything done so far).
    Writing to standard output is taken not to fail. *)
Record env := Env {
  import_fault : string -> option exn;
  call_fault : list event -> event -> option exn;
}.

Definition M (A : Type) : Type := env -> world -> result A * world.

Definition ret {A} (a : A) : M A := fun _ w => (Ok a, w).

Definition bind {A B} (m : M A) (k : A -> M B) : M B :=
  fun e w =>
    match m e w with
    | (Ok a, w') => k a e w'
    | (Raise x, w') => (Raise x, w')
    end.

Definition raise {A} (x : exn) : M A := fun _ w => (Raise x, w).

Definition lift {A} (r : result A) : M A := fun _ w => (r, w).

Definition emit (ev : event) (w : world) : world :=
  {| heap := heap w; next_loc := next_loc w; trace := trace w ++ [ev] |}.

(** [print(...)] *)
Definition print (t : text) : M unit :=
  fun _ w => (Ok tt, emit (Print t) w).

(** A call into the charting library: it raises or it is recorded. *)
Definition call (fn : string) (args : list arg)
           (kwargs : list (string * arg)) : M unit :=
  fun e w =>
    match call_fault e (trace w) (Call fn args kwargs) with
    | Some x => (Raise x, w)
    | None => (Ok tt, emit (Call fn args kwargs) w)
    end.

(** [import name] *)
Definition import_module (name : string) : M unit :=
  fun e w =>
    match import_fault e name with
    | Some x => (Raise x, w)
    | None => (Ok tt, w)
    end.

(** A fresh [dict] object. *)
Definition alloc (d : gmap string (Np.ndarray F)) : M loc :=
  fun _ w =>
    (Ok (next_loc w),
     {| heap := <[next_loc w := d]> (heap w);
        next_loc := S (next_loc w);
        trace := trace w |}).

(** [data[key]] *)
Definition getkey (data : loc) (key : string) : M (Np.ndarray F) :=
  fun _ w =>
    match heap w !! data with
    | Some d =>
        match d !! key with
        | Some a => (Ok a, w)
        | None => (Raise (Exn KeyError key), w)
        end
    | None => (Raise (Exn KeyError key), w)
    end.

(** [data[key] = value], the assignment a mutation of the dataset would
    go through.  The script has no such statement. *)
Definition setkey (data : loc) (key : string) (a : Np.ndarray F) : M unit :=
  fun _ w =>
    match heap w !! data with
    | Some d =>
        (Ok tt,
         {| heap := <[data := <[key := a]> d]> (heap w);
            next_loc := next_loc w;
            trace := trace w |})
    | None => (Raise (Exn KeyError key), w)
    end.

(** [for x in l: body x] *)
Fixpoint for_each {A} (l : list A) (body : A -> M unit) : M unit :=
  match l with
  | [] => ret tt
  | x :: l' => bind (body x) (fun _ => for_each l' body)
  end.

(** [[f x for x in l]] *)
Fixpoint comprehension {A B} (l : list A) (f : A -> M B) : M (list B) :=
  match l with
  | [] => ret []
  | x :: l' =>
      bind (f x) (fun y =>
      bind (comprehension l' f) (fun ys => ret (y :: ys)))
  end.

(** [try: body / except c1 as e: h1 e / except c2 as e: h2 e]: the first
    clause whose class the exception is an instance of runs; with no
    such clause the exception goes on. *)
Fixpoint select_handler (hs : list (exc_class * (exn -> M unit)))
         (x : exn) : option (M unit) :=
  match hs with
  | [] => None
  | (c, h) :: hs' =>
      if isinstance x c then Some (h x) else select_handler hs' x
  end.

Definition try_except (body : M unit)
           (hs : list (exc_class * (exn -> M unit))) : M unit :=
  fun e w =>
    match body e w with
    | (Ok a, w') => (Ok a, w')
    | (Raise x, w') =>
        match select_handler hs x with
        | Some h => h e w'
        | None => (Raise x, w')
        end
    end.

End Effects.
Arguments world F : clear implicits.
Arguments env F : clear implicits.
Arguments event F : clear implicits.
Arguments arg F : clear implicits.
Arguments piece F : clear implicits.
Arguments text F : clear implicits.
Arguments M F A : clear implicits.
End Eff.

Declare Scope py_scope.
Delimit Scope py_scope with py.
Notation "x <- m ;; k" := (Eff.bind m (fun x => k))
  (at level 100, m at next level, k at level 200, right associativity)
  : py_scope.
Notation "m ;; k" := (Eff.bind m (fun _ => k))
  (at level 100, k at level 200, right associativity) : py_scope.

(** ** The script *)

Module Script.
Section Program.
Context {F : Type} {ops : Float64Ops F}.
Import Eff.
Local Open Scope py_scope.
Local Open Scope string_scope.

Abbreviation ndarray := (Np.ndarray F).
Abbreviation scalar := (Np.scalar F).

(** Shorthands for literal arguments. *)
Definition int (z : Z) : arg F := ALit (PyInt z).
Definition dec (m e : Z) : arg F := ALit (PyFloat m e).
Definition num (n : pynum) : scalar := Np.literal n.
Definition newline : string := String (Ascii.ascii_of_nat 10) EmptyString.

Definition grid : M F unit :=
  call "plt.grid" [ABool true] [("alpha", dec 3 (-1))].

(** *** [create_sample_data] (lines 18-44) *)

Definition sizes_literal : list pynum :=
  [PyInt 1000; PyInt 2000; PyInt 5000; PyInt 10000; PyInt 20000].
Definition bubble_literal : list pynum :=
  [PyInt 12; PyInt 45; PyInt 280; PyInt 1100; PyInt 4400].
Definition insertion_literal : list pynum :=
  [PyInt 8; PyInt 30; PyInt 190; PyInt 750; PyInt 3000].
Definition merge_literal : list pynum :=
  [PyInt 2; PyInt 4; PyInt 12; PyInt 25; PyInt 55].
Definition quick_literal : list pynum :=
  [PyFloat 15 (-1); PyFloat 35 (-1); PyInt 10; PyInt 22; PyInt 48].
Definition search_sizes_literal : list pynum :=
  [PyInt 1000; PyInt 5000; PyInt 10000; PyInt 50000; PyInt 100000].
Definition linear_literal : list pynum :=
  [PyFloat 8 (-1); PyFloat 42 (-1); PyFloat 85 (-1); PyInt 42; PyInt 85].
Definition binary_literal : list pynum :=
  [PyFloat 1 (-2); PyFloat 15 (-3); PyFloat 18 (-3); PyFloat 25 (-3);
   PyFloat 28 (-3)].

(** The dictionary of the [return] statement. *)
Definition sample_dict : gmap string ndarray :=
  let sizes := Np.array sizes_literal in
  let bubble_times := Np.array bubble_literal in
  let insertion_times := Np.array insertion_literal in
  let merge_times := Np.array merge_literal in
  let quick_times := Np.array quick_literal in
  let search_sizes := Np.array search_sizes_literal in
  let linear_search := Np.array linear_literal in
  let binary_search := Np.array binary_literal in
  <["sizes" := sizes]> (
  <["bubble" := bubble_times]> (
  <["insertion" := insertion_times]> (
  <["merge" := merge_times]> (
  <["quick" := quick_times]> (
  <["search_sizes" := search_sizes]> (
  <["linear" := linear_search]> (
  <["binary" := binary_search]> ∅))))))).

Definition create_sample_data : M F loc := alloc sample_dict.

(** *** [plot_sorting_comparison] (lines 46-114) *)

(** One data series, [fn(sizes, data[key], fmt, label=..., **style)]. *)
Definition series (data : loc) (fn key fmt label : string)
           (style : list (string * arg F)) (sizes : ndarray) : M F unit :=
  y <- getkey data key ;;
  call fn [AArr sizes; AArr y; AStr fmt] (("label", AStr label) :: style).

Definition thick : list (string * arg F) :=
  [("linewidth", int 2); ("markersize", int 6)].

(** Lines 98-99, [t1[1:] / t0[:-1]]; the source evaluates [data[key]]
    once for each side. *)
Definition growth (t1 t0 : ndarray) : result ndarray :=
  Np.arr_arr Np.TrueDiv
    (Np.getslice t1 (Some 1%Z) None)
    (Np.getslice t0 None (Some (-1)%Z)).

Definition plot_sorting_comparison (data : loc) : M F unit :=
  call "plt.figure" [] [("figsize", ATuple [int 12; int 8])] ;;
  sizes <- getkey data "sizes" ;;
  (* main comparison plot *)
  call "plt.subplot" [int 2; int 2; int 1] [] ;;
  series data "plt.plot" "bubble" "ro-" "Bubble Sort O(n²)" thick sizes ;;
  series data "plt.plot" "insertion" "bo-" "Insertion Sort O(n²)" thick sizes ;;
  series data "plt.plot" "merge" "go-" "Merge Sort O(n log n)" thick sizes ;;
  series data "plt.plot" "quick" "mo-" "Quick Sort O(n log n)" thick sizes ;;
  call "plt.xlabel" [AStr "Input Size (n)"] [] ;;
  call "plt.ylabel" [AStr "Time (milliseconds)"] [] ;;
  call "plt.title" [AStr "Sorting Algorithm Performance Comparison"] [] ;;
  call "plt.legend" [] [] ;;
  grid ;;
  (* log scale comparison *)
  call "plt.subplot" [int 2; int 2; int 2] [] ;;
  series data "plt.loglog" "bubble" "ro-" "Bubble Sort" [] sizes ;;
  series data "plt.loglog" "insertion" "bo-" "Insertion Sort" [] sizes ;;
  series data "plt.loglog" "merge" "go-" "Merge Sort" [] sizes ;;
  series data "plt.loglog" "quick" "mo-" "Quick Sort" [] sizes ;;
  (* theoretical curves *)
  first <- lift (Np.getitem sizes 0) ;;
  last <- lift (Np.getitem sizes (-1)) ;;
  let x_theory := Np.linspace first last 100 in
  q <- lift (Np.arr_sc Np.TrueDiv x_theory (num (PyInt 1000))) ;;
  q2 <- lift (Np.arr_sc Np.Pow q (num (PyInt 2))) ;;
  quadratic <- lift (Np.arr_sc Np.Mul q2 (num (PyInt 10))) ;;
  call "plt.loglog" [AArr x_theory; AArr quadratic; AStr "r--"]
       [("alpha", dec 5 (-1)); ("label", AStr "Theoretical O(n²)")] ;;
  k <- lift (Np.arr_sc Np.TrueDiv x_theory (num (PyInt 1000))) ;;
  k' <- lift (Np.arr_sc Np.TrueDiv x_theory (num (PyInt 1000))) ;;
  kl <- lift (Np.arr_arr Np.Mul k (Np.log2 k')) ;;
  linearithmic <- lift (Np.arr_sc Np.Mul kl (num (PyInt 2))) ;;
  call "plt.loglog" [AArr x_theory; AArr linearithmic; AStr "g--"]
       [("alpha", dec 5 (-1)); ("label", AStr "Theoretical O(n log n)")] ;;
  call "plt.xlabel" [AStr "Input Size (n) - Log Scale"] [] ;;
  call "plt.ylabel" [AStr "Time (ms) - Log Scale"] [] ;;
  call "plt.title" [AStr "Log-Log Scale: Theory vs Practice"] [] ;;
  call "plt.legend" [] [] ;;
  grid ;;
  (* efficient algorithms only *)
  call "plt.subplot" [int 2; int 2; int 3] [] ;;
  series data "plt.plot" "merge" "go-" "Merge Sort" thick sizes ;;
  series data "plt.plot" "quick" "mo-" "Quick Sort" thick sizes ;;
  call "plt.xlabel" [AStr "Input Size (n)"] [] ;;
  call "plt.ylabel" [AStr "Time (milliseconds)"] [] ;;
  call "plt.title" [AStr "O(n log n) Algorithms Comparison"] [] ;;
  call "plt.legend" [] [] ;;
  grid ;;
  (* growth rate analysis: time[i+1] / time[i] *)
  call "plt.subplot" [int 2; int 2; int 4] [] ;;
  b1 <- getkey data "bubble" ;;
  b0 <- getkey data "bubble" ;;
  bubble_growth <- lift (growth b1 b0) ;;
  m1 <- getkey data "merge" ;;
  m0 <- getkey data "merge" ;;
  merge_growth <- lift (growth m1 m0) ;;
  let x_pos := Np.arange (Np.len bubble_growth) in
  left <- lift (Np.arr_sc Np.Sub x_pos (num (PyFloat 2 (-1)))) ;;
  call "plt.bar" [AArr left; AArr bubble_growth; dec 4 (-1)]
       [("label", AStr "Bubble Sort Growth Rate"); ("alpha", dec 7 (-1))] ;;
  right <- lift (Np.arr_sc Np.Add x_pos (num (PyFloat 2 (-1)))) ;;
  call "plt.bar" [AArr right; AArr merge_growth; dec 4 (-1)]
       [("label", AStr "Merge Sort Growth Rate"); ("alpha", dec 7 (-1))] ;;
  call "plt.xlabel" [AStr "Size Transition"] [] ;;
  call "plt.ylabel" [AStr "Time Ratio (t[i+1]/t[i])"] [] ;;
  call "plt.title" [AStr "Performance Growth Rates"] [] ;;
  ticks <- comprehension (seq 0 (Np.len sizes - 1)) (fun i =>
             a <- lift (Np.getitem sizes (Z.of_nat i)) ;;
             b <- lift (Np.getitem sizes (Z.of_nat i + 1)) ;;
             ret (AText [Fmt a ""; Lit "->"; Fmt b ""])) ;;
  call "plt.xticks" [AArr x_pos; AList ticks] [("rotation", int 45)] ;;
  call "plt.legend" [] [] ;;
  grid ;;
  call "plt.tight_layout" [] [] ;;
  call "plt.savefig" [AStr "sorting_analysis.png"]
       [("dpi", int 300); ("bbox_inches", AStr "tight")] ;;
  call "plt.show" [] [].

(** *** [plot_search_comparison] (lines 116-148) *)

(** Line 134, [data['linear'] / data['binary']]. *)
Definition efficiency_ratio (linear binary : ndarray) : result ndarray :=
  Np.arr_arr Np.TrueDiv linear binary.

Definition plot_search_comparison (data : loc) : M F unit :=
  call "plt.figure" [] [("figsize", ATuple [int 10; int 6])] ;;
  sizes <- getkey data "search_sizes" ;;
  call "plt.subplot" [int 1; int 2; int 1] [] ;;
  series data "plt.plot" "linear" "ro-" "Linear Search O(n)" thick sizes ;;
  series data "plt.plot" "binary" "bo-" "Binary Search O(log n)" thick sizes ;;
  call "plt.xlabel" [AStr "Array Size (n)"] [] ;;
  call "plt.ylabel" [AStr "Time (milliseconds)"] [] ;;
  call "plt.title" [AStr "Search Algorithm Comparison"] [] ;;
  call "plt.legend" [] [] ;;
  grid ;;
  (* efficiency ratio *)
  call "plt.subplot" [int 1; int 2; int 2] [] ;;
  linear <- getkey data "linear" ;;
  binary <- getkey data "binary" ;;
  ratio <- lift (efficiency_ratio linear binary) ;;
  call "plt.plot" [AArr sizes; AArr ratio; AStr "go-"] thick ;;
  call "plt.xlabel" [AStr "Array Size (n)"] [] ;;
  call "plt.ylabel" [AStr "Linear Time / Binary Time"] [] ;;
  call "plt.title" [AStr "Binary Search Efficiency Advantage"] [] ;;
  grid ;;
  (* text annotations *)
  for_each (zip (Np.elems sizes) (Np.elems ratio)) (fun p =>
    let size := fst p in
    let ratio := snd p in
    call "plt.annotate"
         [AText [Fmt ratio ".1f"; Lit "x"]; ATuple [AScalar size; AScalar ratio]]
         [("textcoords", AStr "offset points");
          ("xytext", ATuple [int 0; int 10]); ("ha", AStr "center")]) ;;
  call "plt.tight_layout" [] [] ;;
  call "plt.savefig" [AStr "search_analysis.png"]
       [("dpi", int 300); ("bbox_inches", AStr "tight")] ;;
  call "plt.show" [] [].

(** *** [plot_fibonacci_analysis] (lines 150-192) *)

Definition n_values_literal : list pynum :=
  [PyInt 10; PyInt 15; PyInt 20; PyInt 25; PyInt 30; PyInt 35; PyInt 40].
Definition naive_calls_literal : list pynum :=
  [PyInt 177; PyInt 1973; PyInt 21891; PyInt 242785; PyInt 2692537;
   PyInt 29860703; PyInt 331160281].
Definition memo_calls_literal : list pynum :=
  [PyInt 19; PyInt 29; PyInt 39; PyInt 49; PyInt 59; PyInt 69; PyInt 79].
Definition naive_times_literal : list pynum :=
  [PyFloat 1 (-3); PyFloat 1 (-2); PyFloat 1 (-1); PyFloat 12 (-1);
   PyFloat 135 (-1); PyInt 152; PyInt 1680].
Definition memo_times_literal : list pynum :=
  [PyFloat 1 (-3); PyFloat 1 (-3); PyFloat 1 (-3); PyFloat 1 (-3);
   PyFloat 2 (-3); PyFloat 2 (-3); PyFloat 2 (-3)].

Definition plot_fibonacci_analysis : M F unit :=
  let n_values := Np.array n_values_literal in
  let naive_calls := Np.array naive_calls_literal in
  let memo_calls := Np.array memo_calls_literal in
  let naive_times := Np.array naive_times_literal in
  let memo_times := Np.array memo_times_literal in
  call "plt.figure" [] [("figsize", ATuple [int 12; int 5])] ;;
  (* call count comparison *)
  call "plt.subplot" [int 1; int 2; int 1] [] ;;
  call "plt.semilogy" [AArr n_values; AArr naive_calls; AStr "ro-"]
       [("label", AStr "Naive Fibonacci O(2ⁿ)"); ("linewidth", int 2)] ;;
  call "plt.semilogy" [AArr n_values; AArr memo_calls; AStr "bo-"]
       [("label", AStr "Memoized Fibonacci O(n)"); ("linewidth", int 2)] ;;
  call "plt.xlabel" [AStr "n (Fibonacci number)"] [] ;;
  call "plt.ylabel" [AStr "Function Calls (log scale)"] [] ;;
  call "plt.title" [AStr "Recursive Calls: Naive vs Memoized"] [] ;;
  call "plt.legend" [] [] ;;
  grid ;;
  (* time comparison *)
  call "plt.subplot" [int 1; int 2; int 2] [] ;;
  call "plt.semilogy" [AArr n_values; AArr naive_times; AStr "ro-"]
       [("label", AStr "Naive Fibonacci"); ("linewidth", int 2)] ;;
  call "plt.semilogy" [AArr n_values; AArr memo_times; AStr "bo-"]
       [("label", AStr "Memoized Fibonacci"); ("linewidth", int 2)] ;;
  call "plt.xlabel" [AStr "n (Fibonacci number)"] [] ;;
  call "plt.ylabel" [AStr "Time (milliseconds, log scale)"] [] ;;
  call "plt.title" [AStr "Execution Time: Exponential vs Linear"] [] ;;
  call "plt.legend" [] [] ;;
  grid ;;
  (* annotation *)
  nt <- lift (Np.getitem naive_times (-1)) ;;
  mt <- lift (Np.getitem memo_times (-1)) ;;
  slowdown <- lift (Np.scalar_op Np.TrueDiv nt mt) ;;
  y <- lift (Np.getitem naive_times (-1)) ;;
  y' <- lift (Np.getitem naive_times (-1)) ;;
  ytext <- lift (Np.scalar_op Np.Mul y' (num (PyInt 10))) ;;
  call "plt.annotate"
       [AText [Lit "n=40: "; Fmt slowdown ".0f"; Lit "x slower!"]]
       [("xy", ATuple [int 40; AScalar y]);
        ("xytext", ATuple [int 35; AScalar ytext]);
        ("arrowprops",
         ADict [("arrowstyle", AStr "->"); ("color", AStr "red")])] ;;
  call "plt.tight_layout" [] [] ;;
  call "plt.savefig" [AStr "fibonacci_analysis.png"]
       [("dpi", int 300); ("bbox_inches", AStr "tight")] ;;
  call "plt.show" [] [].

(** *** [create_complexity_cheatsheet] (lines 194-221) *)

(** The sampled domain, [np.logspace(1, 4, 1000)]. *)
Definition domain : ndarray :=
  Np.logspace (num (PyInt 1)) (num (PyInt 4)) 1000.

(** The curves of lines 201-206, each with the label it is drawn under. *)
Definition curve_constant (n : ndarray) : result ndarray :=
  Ok (Np.ones_like n).
Definition curve_logarithmic (n : ndarray) : result ndarray :=
  Ok (Np.log2 n).
Definition curve_linear (n : ndarray) : result ndarray :=
  Ok n.
Definition curve_linearithmic (n : ndarray) : result ndarray :=
  Np.arr_arr Np.Mul n (Np.log2 n).
Definition curve_quadratic (n : ndarray) : result ndarray :=
  Np.arr_sc Np.Pow n (num (PyInt 2)).
Definition curve_exponential (n : ndarray) : result ndarray :=
  Np.sc_arr Np.Pow (num (PyInt 2)) (Np.log2 n).

Definition curves : list (string * (ndarray -> result ndarray)) :=
  [("O(1) - Hash table lookup", curve_constant);
   ("O(log n) - Binary search", curve_logarithmic);
   ("O(n) - Linear search", curve_linear);
   ("O(n log n) - Merge/Quick sort", curve_linearithmic);
   ("O(n²) - Bubble/Insertion sort", curve_quadratic);
   ("O(2ⁿ) - Naive Fibonacci", curve_exponential)].

(** The bands of lines 209-211: bounds, colour, label. *)
Definition bands : list (Z * Z * string * string) :=
  [(1, 100, "green", "Small n: Simple algorithms OK");
   (100, 10000, "yellow", "Medium n: Efficiency matters");
   (10000, 100000, "red", "Large n: Only efficient algorithms")]%Z.

Definition create_complexity_cheatsheet : M F unit :=
  call "plt.subplots" [] [("figsize", ATuple [int 12; int 8])] ;;
  let n := domain in
  for_each curves (fun c =>
    y <- lift (snd c n) ;;
    call "ax.loglog" [AArr n; AArr y]
         [("label", AStr (fst c)); ("linewidth", int 3)]) ;;
  for_each bands (fun b =>
    match b with
    | (lo, hi, colour, label) =>
        call "ax.axvspan" [int lo; int hi]
             [("alpha", dec 1 (-1)); ("color", AStr colour);
              ("label", AStr label)]
    end) ;;
  call "ax.set_xlabel" [AStr "Input Size (n)"] [] ;;
  call "ax.set_ylabel" [AStr "Operations / Time (arbitrary units)"] [] ;;
  call "ax.set_title" [AStr "Algorithm Complexity Comparison"] [] ;;
  call "ax.legend" []
       [("bbox_to_anchor", ATuple [dec 105 (-2); int 1]);
        ("loc", AStr "upper left")] ;;
  call "ax.grid" [ABool true] [("alpha", dec 3 (-1))] ;;
  call "plt.tight_layout" [] [] ;;
  call "plt.savefig" [AStr "complexity_cheatsheet.png"]
       [("dpi", int 300); ("bbox_inches", AStr "tight")] ;;
  call "plt.show" [] [].

(** *** [main] (lines 223-250) *)

Definition say (s : string) : M F unit := print [Lit s].

Definition main : M F unit :=
  say "Algorithm Performance Analysis" ;;
  say (str_repeat "=" 40) ;;
  data <- create_sample_data ;;
  say "Generating performance analysis plots..." ;;
  plot_sorting_comparison data ;;
  say "✓ Sorting algorithm comparison saved as 'sorting_analysis.png'" ;;
  plot_search_comparison data ;;
  say "✓ Search algorithm comparison saved as 'search_analysis.png'" ;;
  plot_fibonacci_analysis ;;
  say "✓ Fibonacci recursion analysis saved as 'fibonacci_analysis.png'" ;;
  create_complexity_cheatsheet ;;
  say "✓ Complexity reference chart saved as 'complexity_cheatsheet.png'" ;;
  say (newline ++ "Analysis complete! Use these plots in your report.") ;;
  say (newline ++ "To use your own data:") ;;
  say "1. Export measurements to CSV format" ;;
  say "2. Replace the create_sample_data() function" ;;
  say "3. Modify column names to match your CSV structure".

(** *** The module body (lines 12-15 and 252-263) *)

Definition on_import_error (e : exn) : M F unit :=
  print [Lit "Missing required package: "; FmtExn e] ;;
  say "Install with: pip install matplotlib pandas numpy".

Definition on_exception (e : exn) : M F unit :=
  print [Lit "Error: "; FmtExn e] ;;
  say "Make sure you have the required data and packages installed.".

Definition guarded_main : M F unit :=
  try_except main
    [(ImportError, on_import_error); (Exception, on_exception)].

(** Running the file: the four imports at the top of the module, then
    the definitions (no effect), then the [__name__] guard. *)
Definition script (dunder_name : string) : M F unit :=
  import_module "matplotlib.pyplot" ;;
  import_module "numpy" ;;
  import_module "pandas" ;;
  import_module "matplotlib.patches" ;;
  if String.eqb dunder_name "__main__" then guarded_main else ret tt.

(** How the interpreter ends: normally (exit status 0), or with an
    uncaught exception and its traceback. *)
Inductive termination :=
| Exit0
| Uncaught (e : exn).

Definition initial_world : world F :=
  {| heap := ∅; next_loc := 0; trace := [] |}.

Definition run_script (e : env F) : termination * list (event F) :=
  match script "__main__" e initial_world with
  | (Ok _, w) => (Exit0, trace w)
  | (Raise x, w) => (Uncaught x, trace w)
  end.

End Program.
End Script.

(** ** Reading a trace *)

Module Obs.
Section Observations.
Context {F : Type} {ops : Float64Ops F}.
Import Eff Script.
Local Open Scope string_scope.

(** An environment in which every import and every library call
    succeeds.  It stands for the installed libraries on arguments they
    accept; matplotlib rejects some, such as an x and a y series of
    different lengths (see [strict_plot]). *)
Definition no_faults : env F :=
  {| import_fault := fun _ => None; call_fault := fun _ _ => None |}.

(** The path of a [plt.savefig] call. *)
Definition saved_path (ev : event F) : option string :=
  match ev with
  | Call fn (AStr path :: _) _ =>
      if String.eqb fn "plt.savefig" then Some path else None
  | _ => None
  end.

Definition saved_paths (tr : list (event F)) : list string :=
  omap saved_path tr.

(** File writes and confirmation lines (the printed lines that open
    with the check mark), in the order they happen. *)
Inductive io :=
| Wrote (path : string)
| Confirmed (line : string).

Definition io_of (ev : event F) : option io :=
  match ev with
  | Print [Lit line] =>
      if String.prefix "✓" line then Some (Confirmed line) else None
  | _ => option_map Wrote (saved_path ev)
  end.

Definition write_log (tr : list (event F)) : list io := omap io_of tr.

(** Heights of the [plt.bar] calls. *)
Definition bar_height (ev : event F) : option (Np.ndarray F) :=
  match ev with
  | Call fn [_; AArr h; _] _ =>
      if String.eqb fn "plt.bar" then Some h else None
  | _ => None
  end.

Definition bar_heights (tr : list (event F)) : list (Np.ndarray F) :=
  omap bar_height tr.

(** The [(x, y)] data of the calls [fn(x, y, fmt, ...)]. *)
Definition series_of (fn fmt : string) (ev : event F)
  : option (Np.ndarray F * Np.ndarray F) :=
  match ev with
  | Call fn' [AArr x; AArr y; AStr fmt'] _ =>
      if String.eqb fn fn' && String.eqb fmt fmt' then Some (x, y) else None
  | _ => None
  end.

Definition drawn (fn fmt : string) (tr : list (event F))
  : list (Np.ndarray F * Np.ndarray F) :=
  omap (series_of fn fmt) tr.

(** Labels of the calls of [fn], in order. *)
Definition label_of (fn : string) (ev : event F) : option string :=
  match ev with
  | Call fn' _ (("label", AStr l) :: _) =>
      if String.eqb fn fn' then Some l else None
  | Call fn' _ [_; _; ("label", AStr l)] =>
      if String.eqb fn fn' then Some l else None
  | _ => None
  end.

Definition labels (fn : string) (tr : list (event F)) : list string :=
  omap (label_of fn) tr.

(** Consecutive quotients [t[i+1] / t[i]] of a sequence. *)
Fixpoint quotients (l : list F) : list F :=
  match l with
  | a :: (b :: _) as l' => fdiv b a :: quotients l'
  | _ => []
  end.

Fixpoint increasing (l : list Z) : bool :=
  match l with
  | a :: (b :: _) as l' => (a <? b)%Z && increasing l'
  | _ => true
  end.

(** [main] as the guard reaches it, and the two routines that take the
    dataset, run on the dataset the constructor returns. *)
Definition sorting_on_sample : M F unit :=
  bind create_sample_data plot_sorting_comparison.

Definition search_on_sample : M F unit :=
  bind create_sample_data plot_search_comparison.

(** *** Properties of a computation, used to reason about runs *)

(** A run that returns did so without meeting a fault, so it is the run
    of the fault-free environment. *)
Definition faultless {A} (m : M F A) : Prop :=
  forall e w a w', m e w = (Ok a, w') -> m no_faults w = (Ok a, w').

(** The computation leaves every object of the heap as it found it,
    however it ends. *)
Definition preserves_heap {A} (m : M F A) : Prop :=
  forall e w, heap (snd (m e w)) = heap w.

(** The computation does not look at the heap: from two worlds with the
    same trace it returns the same result and leaves the same trace. *)
Definition heap_blind {A} (m : M F A) : Prop :=
  forall e w1 w2,
    trace w1 = trace w2 ->
    fst (m e w1) = fst (m e w2)
    /\ trace (snd (m e w1)) = trace (snd (m e w2)).

(** Every exception the computation lets out is an instance of
    [Exception], provided the library raises nothing else. *)
Definition well_behaved (e : env F) : Prop :=
  forall tr ev x, call_fault e tr ev = Some x -> isinstance x Exception = true.

(** A pure result that raises at most an instance of [Exception]. *)
Definition benign {A} (r : result A) : Prop :=
  forall x, r = Raise x -> isinstance x Exception = true.

Definition raises_exceptions {A} (m : M F A) : Prop :=
  forall e w x w',
    well_behaved e -> m e w = (Raise x, w') -> isinstance x Exception = true.

(** Every module of the four import statements can be imported. *)
Definition imports_succeed (e : env F) : Prop :=
  Forall (fun name => import_fault e name = None)
    ["matplotlib.pyplot"; "numpy"; "pandas"; "matplotlib.patches"].

(** An installation without matplotlib: importing it, or a module of
    it, fails the way the interpreter reports a missing package. *)
Definition without_matplotlib : env F :=
  {| import_fault := fun name =>
       if String.prefix "matplotlib" name
       then Some (Exn ModuleNotFoundError "No module named 'matplotlib'")
       else None;
     call_fault := fun _ _ => None |}.

(** The user interrupts the program while the first figure is shown. *)
Definition interrupted_at_show : env F :=
  {| import_fault := fun _ => None;
     call_fault := fun _ ev =>
       match ev with
       | Call fn _ _ =>
           if String.eqb fn "plt.show"
           then Some (Exn KeyboardInterrupt "") else None
       | _ => None
       end |}.

(** The library fails to write the second image. *)
Definition disk_full_at_search : env F :=
  {| import_fault := fun _ => None;
     call_fault := fun _ ev =>
       match saved_path ev with
       | Some "search_analysis.png" =>
           Some (Exn (LibraryError "OSError") "No space left on device")
       | _ => None
       end |}.

(** *** Runs on any dataset *)

(** The world [w] after the events [evs]. *)
Definition extend (w : world F) (evs : list (event F)) : world F :=
  {| heap := heap w; next_loc := next_loc w;
     trace := (trace w ++ evs)%list |}.

(** The first of [keys] that the dictionary lacks, in lookup order. *)
Definition first_missing (d : gmap string (Np.ndarray F))
           (keys : list string) : option string :=
  find (fun key => negb (bool_decide (is_Some (d !! key)))) keys.

(** The points of the [plt.annotate(text, (x, y), ...)] calls. *)
Definition annotated_point (ev : event F)
  : option (Np.scalar F * Np.scalar F) :=
  match ev with
  | Call fn [_; ATuple [AScalar x; AScalar y]] _ =>
      if String.eqb fn "plt.annotate" then Some (x, y) else None
  | _ => None
  end.

Definition annotated (tr : list (event F))
  : list (Np.scalar F * Np.scalar F) :=
  omap annotated_point tr.

(** The tick positions and the number of tick labels of [plt.xticks]. *)
Definition ticks_of (ev : event F) : option (Np.ndarray F * nat) :=
  match ev with
  | Call fn [AArr pos; AList labels] _ =>
      if String.eqb fn "plt.xticks" then Some (pos, length labels) else None
  | _ => None
  end.

Definition ticks (tr : list (event F)) : list (Np.ndarray F * nat) :=
  omap ticks_of tr.

(** *** What a computation adds to the write log *)

(** Under every behaviour of the library: a run that returns has added
    exactly [ps] to the write log; a run that raises has added an initial
    segment of [ps]. *)
Definition logs {A} (ps : list io) (m : M F A) : Prop :=
  forall e w,
    match fst (m e w) with
    | Ok _ =>
        write_log (trace (snd (m e w))) = (write_log (trace w) ++ ps)%list
    | Raise _ =>
        exists qs, qs `prefix_of` ps
                   /\ write_log (trace (snd (m e w)))
                      = (write_log (trace w) ++ qs)%list
    end.

(** The same without a promise on the result: some initial segment of
    [ps] has been added. *)
Definition logs_within {A} (ps : list io) (m : M F A) : Prop :=
  forall e w,
    exists qs, qs `prefix_of` ps
               /\ write_log (trace (snd (m e w)))
                  = (write_log (trace w) ++ qs)%list.

(** A fault of the library can only cut a run short: the run under any
    environment that returns is the fault-free run, the trace of any run
    is an initial segment of the trace of the fault-free run, and a run
    only ever adds to the trace. *)
Definition cut_short {A} (m : M F A) : Prop :=
  forall e w,
    (forall a w', m e w = (Ok a, w') -> m no_faults w = (Ok a, w'))
    /\ trace (snd (m e w)) `prefix_of` trace (snd (m no_faults w))
    /\ trace w `prefix_of` trace (snd (m e w)).

(** An installation without pandas, a package the script imports and
    never uses. *)
Definition without_pandas : env F :=
  {| import_fault := fun name =>
       if String.eqb name "pandas"
       then Some (Exn ModuleNotFoundError "No module named 'pandas'")
       else None;
     call_fault := fun _ _ => None |}.

(** A charting library that cannot load its drawing backend: the first
    call that needs it raises an [ImportError]. *)
Definition broken_backend : env F :=
  {| import_fault := fun _ => None;
     call_fault := fun _ ev =>
       match ev with
       | Call fn _ _ =>
           if String.eqb fn "plt.figure"
           then Some (Exn ImportError "Cannot load backend")
           else None
       | _ => None
       end |}.

(** *** Datasets other than the sample *)

(** A world whose only object is the dictionary [d], at reference 0. *)
Definition world_with (d : gmap string (Np.ndarray F)) : world F :=
  {| heap := {[ 0%nat := d ]}; next_loc := 1; trace := [] |}.

(** Measurements of one's own: three sizes with a timing each. *)
Definition own_dataset : gmap string (Np.ndarray F) :=
  <["sizes" := Np.array [PyInt 100; PyInt 200; PyInt 400]]> (
  <["bubble" := Np.array [PyInt 3; PyInt 12; PyInt 60]]> (
  <["insertion" := Np.array [PyInt 2; PyInt 9; PyInt 40]]> (
  <["merge" := Np.array [PyInt 1; PyInt 2; PyInt 5]]> (
  <["quick" := Np.array [PyFloat 5 (-1); PyFloat 15 (-1); PyInt 4]]> (
  <["search_sizes" := Np.array [PyInt 100; PyInt 200; PyInt 400]]> (
  <["linear" := Np.array [PyFloat 8 (-1); PyFloat 42 (-1); PyFloat 85 (-1)]]> (
  <["binary" := Np.array [PyFloat 1 (-2); PyFloat 15 (-3); PyFloat 18 (-3)]]>
  ∅))))))).



(** *** Where an exception comes from *)



(** No measurement at all: every array is empty. *)
Definition empty_dataset : gmap string (Np.ndarray F) :=
  <["sizes" := Np.array []]> (
  <["bubble" := Np.array []]> (
  <["insertion" := Np.array []]> (
  <["merge" := Np.array []]> (
  <["quick" := Np.array []]> (
  <["search_sizes" := Np.array []]> (
  <["linear" := Np.array []]> (
  <["binary" := Np.array []]> ∅))))))).

End Observations.
End Obs.

(** * Properties *)

(** ** The model on small inputs *)

Example subclass_chain :
  issubclass ModuleNotFoundError ImportError = true
  /\ issubclass ModuleNotFoundError Exception = true
  /\ issubclass KeyError Exception = true
  /\ issubclass (LibraryError "OSError") Exception = true
  /\ issubclass (LibraryError "OSError") ImportError = false
  /\ issubclass KeyboardInterrupt Exception = false
  /\ issubclass SystemExit Exception = false.
Proof. repeat split. Qed.

Example slices_of_four :
  slice [1; 2; 3; 4]%Z (Some 1%Z) None = [2; 3; 4]%Z
  /\ slice [1; 2; 3; 4]%Z None (Some (-1)%Z) = [1; 2; 3]%Z
  /\ slice [1; 2; 3; 4]%Z (Some (-10)%Z) (Some 10%Z) = [1; 2; 3; 4]%Z
  /\ slice [1; 2; 3; 4]%Z (Some 3%Z) (Some 1%Z) = []
  /\ slice (@nil Z) (Some 1%Z) None = [].
Proof. repeat split. Qed.

Example indices_of_five :
  norm_index 5 0 = Some 0%nat
  /\ norm_index 5 (-1) = Some 4%nat
  /\ norm_index 5 5 = None
  /\ norm_index 5 (-6) = None.
Proof. repeat split. Qed.

Example rule_of_forty : String.length (str_repeat "=" 40) = 40%nat.
Proof. reflexivity. Qed.

(** The quotient that stands for a decimal literal is the binary64 number
    the literal denotes, for the literals of the source. *)
Example decimal_literals :
  map (Np.literal (ops := Binary64.arithmetic))
      [PyFloat 15 (-1); PyFloat 8 (-1); PyFloat 42 (-1); PyFloat 85 (-1);
       PyFloat 1 (-2); PyFloat 15 (-3); PyFloat 18 (-3); PyFloat 25 (-3);
       PyFloat 28 (-3); PyFloat 1 (-3); PyFloat 1 (-1); PyFloat 12 (-1);
       PyFloat 135 (-1); PyFloat 2 (-3); PyFloat 2 (-1)]
  = map Np.SFloat
      [1.5; 0.8; 4.2; 8.5; 0.01; 0.015; 0.018; 0.025; 0.028; 0.001; 0.1;
       1.2; 13.5; 0.002; 0.2]%float.
Proof. reflexivity. Qed.

Example int64_wraps :
  Np.wrap64 (2 ^ 63) = (- 2 ^ 63)%Z /\ Np.wrap64 (-1) = (-1)%Z.
Proof. split; reflexivity. Qed.

Example linspace_of_five :
  Np.linspace (ops := Binary64.arithmetic) (Np.SInt 1000) (Np.SInt 20000) 5
  = Np.FloatArray [1000; 5750; 10500; 15250; 20000]%float.
Proof. reflexivity. Qed.

Example division_of_integers :
  Np.arr_arr (ops := Binary64.arithmetic) Np.TrueDiv
    (Np.IntArray [45; 280]%Z) (Np.IntArray [12; 45]%Z)
  = Ok (Np.FloatArray [3.75; 280 / 45]%float).
Proof. reflexivity. Qed.

Example shapes_that_do_not_broadcast :
  Np.arr_arr (ops := Binary64.arithmetic) Np.TrueDiv
    (Np.IntArray [1; 2; 3]%Z) (Np.IntArray [1; 2]%Z)
  = Raise (Exn ValueError "operands could not be broadcast together").
Proof. reflexivity. Qed.

Example missing_key :
  fst (Eff.getkey (F := float) 0%nat "median" Obs.no_faults
         {| Eff.heap := {[ 0%nat := Script.sample_dict
                                      (ops := Binary64.arithmetic) ]};
            Eff.next_loc := 1; Eff.trace := [] |})
  = Raise (Exn KeyError "median").
Proof. vm_compute. reflexivity. Qed.

Section Lengths.
Context {F : Type} {ops : Float64Ops F}.
Import Script.

(** C6: the parallel sequences of each dataset have one length: 5 for
    the sizes and the four sorting timings, 5 for the three search
    sequences, 7 for the five Fibonacci sequences; and these are the
    arrays stored in the sample dataset. *)
Theorem parallel_sequences_equal_length :
  (map Np.len [Np.array sizes_literal; Np.array bubble_literal;
               Np.array insertion_literal; Np.array merge_literal;
               Np.array quick_literal] = [5; 5; 5; 5; 5])
  /\ (map Np.len [Np.array search_sizes_literal; Np.array linear_literal;
                  Np.array binary_literal] = [5; 5; 5])
  /\ (map Np.len [Np.array n_values_literal; Np.array naive_calls_literal;
                  Np.array memo_calls_literal; Np.array naive_times_literal;
                  Np.array memo_times_literal] = [7; 7; 7; 7; 7])
  /\ (map (fun k => Np.len <$> sample_dict !! k)
          ["sizes"; "bubble"; "insertion"; "merge"; "quick"]
      = [Some 5; Some 5; Some 5; Some 5; Some 5])
  /\ (map (fun k => Np.len <$> sample_dict !! k)
          ["search_sizes"; "linear"; "binary"]
      = [Some 5; Some 5; Some 5]).
Proof.
  repeat split; reflexivity.
Qed.

(** What [Obs.increasing] decides: later elements are larger. *)
Lemma increasing_spec (l : list Z) :
  Obs.increasing l = true <->
  forall i j a b, l !! i = Some a -> l !! j = Some b ->
                  (i < j)%nat -> (a < b)%Z.
Proof.
  induction l as [|x l IH]; simpl.
  - split; [intros _ i j a b Hi | reflexivity]. now rewrite lookup_nil in Hi.
  - destruct l as [|y l].
    + split; [|reflexivity].
      intros _ [|i] [|j] a b Hi Hj Hlt; simpl in *; try lia;
        rewrite lookup_nil in *; discriminate.
    + rewrite andb_true_iff, Z.ltb_lt, IH. split.
      * intros [Hxy Hl] [|i] [|j] a b Hi Hj Hlt; simpl in *; try lia.
        -- injection Hi as <-. destruct j as [|j].
           ++ simpl in Hj. injection Hj as <-. exact Hxy.
           ++ apply Z.lt_trans with y; [exact Hxy|].
              apply (Hl 0%nat (S j) y b); [reflexivity | exact Hj | lia].
        -- apply (Hl i j a b Hi Hj). lia.
      * intros Hall. split.
        -- apply (Hall 0%nat 1%nat x y); [reflexivity | reflexivity | lia].
        -- intros i j a b Hi Hj Hlt.
           apply (Hall (S i) (S j) a b Hi Hj). lia.
Qed.

(** C10: the three sequences drawn along an x-axis, the sorting sizes,
    the search sizes and the Fibonacci n-values, are the integer arrays
    of the source and each is strictly increasing. *)
Theorem x_axes_strictly_increasing :
  Np.array sizes_literal = Np.IntArray [1000; 2000; 5000; 10000; 20000]%Z
  /\ Np.array search_sizes_literal
     = Np.IntArray [1000; 5000; 10000; 50000; 100000]%Z
  /\ Np.array n_values_literal = Np.IntArray [10; 15; 20; 25; 30; 35; 40]%Z
  /\ Obs.increasing [1000; 2000; 5000; 10000; 20000]%Z = true
  /\ Obs.increasing [1000; 5000; 10000; 50000; 100000]%Z = true
  /\ Obs.increasing [10; 15; 20; 25; 30; 35; 40]%Z = true.
Proof.
  repeat split; reflexivity.
Qed.

End Lengths.

(** ** Runs that return are fault-free runs *)

Section Faultless.
Context {F : Type} {ops : Float64Ops F}.
Import Eff Script Obs.

Lemma faultless_ret {A} (a : A) : faultless (F := F) (ret a).
Proof. intros e w a' w' Hrun. exact Hrun. Qed.

Lemma faultless_lift {A} (r : result A) : faultless (F := F) (lift r).
Proof. intros e w a' w' Hrun. exact Hrun. Qed.

Lemma faultless_print (t : text F) : faultless (print t).
Proof. intros e w a' w' Hrun. exact Hrun. Qed.

Lemma faultless_alloc d : faultless (F := F) (alloc d).
Proof. intros e w a' w' Hrun. exact Hrun. Qed.

Lemma faultless_getkey data key : faultless (F := F) (getkey data key).
Proof. intros e w a' w' Hrun. exact Hrun. Qed.

Lemma faultless_call fn args kwargs :
  faultless (F := F) (call fn args kwargs).
Proof.
  intros e w a w'. unfold call. simpl.
  destruct (call_fault e (trace w) (Call fn args kwargs)); [discriminate|].
  trivial.
Qed.

Lemma faultless_import name : faultless (F := F) (import_module name).
Proof.
  intros e w a w'. unfold import_module. simpl.
  destruct (import_fault e name); [discriminate | trivial].
Qed.

Lemma faultless_bind {A B} (m : M F A) (k : A -> M F B) :
  faultless m -> (forall a, faultless (k a)) -> faultless (bind m k).
Proof.
  intros Hm Hk e w b w'. unfold bind.
  destruct (m e w) as [[a|x] w1] eqn:Em; [|discriminate].
  intros Hrun. rewrite (Hm _ _ _ _ Em). exact (Hk a _ _ _ _ Hrun).
Qed.

Lemma faultless_for_each {A} (l : list A) (body : A -> M F unit) :
  (forall a, faultless (body a)) -> faultless (for_each l body).
Proof.
  intros Hbody. induction l as [|a l IH]; simpl.
  - apply faultless_ret.
  - apply faultless_bind; [apply Hbody | intros _; exact IH].
Qed.

Lemma faultless_comprehension {A B} (l : list A) (f : A -> M F B) :
  (forall a, faultless (f a)) -> faultless (comprehension l f).
Proof.
  intros Hf. induction l as [|a l IH]; simpl.
  - apply faultless_ret.
  - apply faultless_bind; [apply Hf | intros b].
    apply faultless_bind; [exact IH | intros bs; apply faultless_ret].
Qed.

End Faultless.

(** Decomposes a computation of the script along its binds. *)
Ltac faultless_step :=
  first
    [ apply faultless_bind; [|intro]
    | apply faultless_for_each; intro
    | apply faultless_comprehension; intro
    | apply faultless_call
    | apply faultless_print
    | apply faultless_getkey
    | apply faultless_lift
    | apply faultless_alloc
    | apply faultless_import
    | apply faultless_ret
    | match goal with
      | |- Obs.faultless (match ?p with pair _ _ => _ end) => destruct p
      end ].

Section FaultlessScript.
Context {F : Type} {ops : Float64Ops F}.
Import Eff Script Obs.

Lemma faultless_plot_sorting data : faultless (plot_sorting_comparison data).
Proof.
  unfold plot_sorting_comparison, series, grid. repeat faultless_step.
Qed.

Lemma faultless_plot_search data : faultless (plot_search_comparison data).
Proof.
  unfold plot_search_comparison, series, grid. repeat faultless_step.
Qed.

Lemma faultless_plot_fibonacci : faultless plot_fibonacci_analysis.
Proof.
  unfold plot_fibonacci_analysis, grid. repeat faultless_step.
Qed.

Lemma faultless_cheatsheet : faultless create_complexity_cheatsheet.
Proof.
  unfold create_complexity_cheatsheet. repeat faultless_step.
Qed.

Lemma faultless_main : faultless main.
Proof.
  unfold main, say, create_sample_data.
  repeat first
    [ apply faultless_plot_sorting | apply faultless_plot_search
    | apply faultless_plot_fibonacci | apply faultless_cheatsheet
    | faultless_step ].
Qed.

Lemma faultless_sorting_on_sample : faultless sorting_on_sample.
Proof.
  apply faultless_bind; [apply faultless_alloc | apply faultless_plot_sorting].
Qed.

Lemma faultless_search_on_sample : faultless search_on_sample.
Proof.
  apply faultless_bind; [apply faultless_alloc | apply faultless_plot_search].
Qed.

End FaultlessScript.

(** ** Slices and elementwise division *)

Section Division.
Context {F : Type} {ops : Float64Ops F}.
Import Script Obs.

Lemma slice_from_1 {A} (l : list A) : slice l (Some 1%Z) None = tail l.
Proof.
  unfold slice, norm_bound. destruct l as [|x l]; [reflexivity|].
  change (1 <? 0)%Z with false. cbv iota.
  replace (Z.to_nat _) with 1%nat by (simpl length; lia).
  simpl. rewrite Nat.sub_0_r. apply firstn_all.
Qed.

Lemma slice_to_minus_1 {A} (l : list A) :
  slice l None (Some (-1)%Z) = removelast l.
Proof.
  unfold slice, norm_bound. rewrite removelast_firstn_len.
  change (-1 <? 0)%Z with true. cbv iota.
  simpl skipn. rewrite Nat.sub_0_r. f_equal.
  destruct l as [|x l]; [reflexivity|]. simpl length. lia.
Qed.

Lemma slice_map {A B} (f : A -> B) (l : list A) start stop :
  slice (map f l) start stop = map f (slice l start stop).
Proof.
  unfold slice. now rewrite length_map, skipn_map, firstn_map.
Qed.

Lemma elems_getslice (a : Np.ndarray F) start stop :
  Np.elems (Np.getslice a start stop) = slice (Np.elems a) start stop.
Proof. destruct a; simpl; now rewrite slice_map. Qed.

Lemma mapM_total {A B} (f : A -> result B) (g : A -> B) (l : list A) :
  (forall x, f x = Ok (g x)) -> Np.mapM f l = Ok (map g l).
Proof.
  intros Hfg. induction l as [|x l IH]; simpl; [reflexivity|].
  now rewrite Hfg, IH.
Qed.

Lemma mapM_map_total {A B C} (f : B -> result C) (g : A -> B) (h : A -> C)
      (l : list A) :
  (forall x, f (g x) = Ok (h x)) -> Np.mapM f (map g l) = Ok (map h l).
Proof.
  intros Hfg. induction l as [|x l IH]; simpl; [reflexivity|].
  now rewrite Hfg, IH.
Qed.

Lemma length_removelast_tail {A} (l : list A) :
  length (tail l) = length (removelast l).
Proof.
  destruct l as [|x l]; [reflexivity|].
  rewrite removelast_firstn_len, length_firstn. simpl. lia.
Qed.

(** Pairing the sequence without its head with the sequence without its
    last element and dividing gives the consecutive quotients. *)
Lemma quotients_zip (l : list (Np.scalar F)) :
  map (fun p => fdiv (Np.to_float (fst p)) (Np.to_float (snd p)))
      (zip (tail l) (removelast l))
  = quotients (map Np.to_float l).
Proof.
  destruct l as [|a l]; [reflexivity|].
  revert a. induction l as [|b l IH]; intros a; [reflexivity|].
  specialize (IH b). simpl tail in *.
  change (removelast (a :: b :: l)) with (a :: removelast (b :: l)).
  simpl. f_equal. exact IH.
Qed.

Lemma quotients_lookup (l : list F) i a b :
  l !! i = Some a -> l !! S i = Some b -> quotients l !! i = Some (fdiv b a).
Proof.
  revert i. induction l as [|x l IH]; intros i Hi Hsi; [discriminate|].
  destruct l as [|y l]; [discriminate|].
  destruct i as [|i].
  - simpl in *. congruence.
  - change ((y :: l) !! i = Some a) in Hi.
    change ((y :: l) !! S i = Some b) in Hsi.
    change (quotients (y :: l) !! i = Some (fdiv b a)).
    now apply IH.
Qed.

Lemma length_quotients (l : list F) : length (quotients l) = pred (length l).
Proof.
  induction l as [|x l IH]; [reflexivity|].
  destruct l as [|y l]; [reflexivity|].
  change (S (length (quotients (y :: l))) = S (length l)).
  rewrite IH. reflexivity.
Qed.

Lemma map_zip_div (xs ys : list (Np.scalar F)) :
  map (fun p => fdiv (Np.to_float (fst p)) (Np.to_float (snd p))) (zip xs ys)
  = zip_with fdiv (map Np.to_float xs) (map Np.to_float ys).
Proof.
  revert ys. induction xs as [|x xs IH]; intros [|y ys]; simpl;
    [reflexivity..|]. now rewrite IH.
Qed.

(** [a / b] on arrays of one length is the elementwise quotient, in
    float64 whatever the dtypes. *)
Lemma true_divide_elementwise (a b : Np.ndarray F) :
  Np.len a = Np.len b ->
  Np.arr_arr Np.TrueDiv a b
  = Ok (Np.FloatArray (zip_with fdiv (Np.floats a) (Np.floats b))).
Proof.
  unfold Np.len, Np.arr_arr, Np.broadcast, Np.floats. intros Hlen.
  rewrite Hlen, Nat.eqb_refl. simpl rbind.
  rewrite (mapM_total _
             (fun p => Np.SFloat (fdiv (Np.to_float (fst p))
                                       (Np.to_float (snd p)))))
    by reflexivity.
  simpl. do 2 f_equal. rewrite map_map. apply map_zip_div.
Qed.

Lemma growth_quotients (t : Np.ndarray F) :
  growth t t = Ok (Np.FloatArray (quotients (Np.floats t))).
Proof.
  unfold growth. rewrite true_divide_elementwise.
  - do 2 f_equal. unfold Np.floats. rewrite !elems_getslice.
    rewrite slice_from_1, slice_to_minus_1, <- quotients_zip.
    symmetry. apply map_zip_div.
  - unfold Np.len. rewrite !elems_getslice, slice_from_1, slice_to_minus_1.
    apply length_removelast_tail.
Qed.

End Division.

(** ** The derived sequences *)

(** The fault-free run of each routine on the sample dataset returns. *)
Lemma sorting_on_sample_returns (F : Type) (ops : Float64Ops F) :
  fst (Obs.sorting_on_sample Obs.no_faults Script.initial_world) = Ok tt.
Proof. vm_compute. reflexivity. Qed.

Lemma search_on_sample_returns (F : Type) (ops : Float64Ops F) :
  fst (Obs.search_on_sample Obs.no_faults Script.initial_world) = Ok tt.
Proof. vm_compute. reflexivity. Qed.

(** C3: the growth-rate bars are the quotients [time[i+1] / time[i]] of
    consecutive samples.  First for any timing array, then for the two bar
    series the sorting routine draws from the sample dataset (bubble sort
    and merge sort) in every run that returns, and last in binary64, where
    the first bubble-sort bar, for the step from size 1000 to size 2000,
    is [45 / 12 = 3.75]. *)
Theorem growth_bars_are_consecutive_quotients :
  (forall (F : Type) (ops : Float64Ops F) (t : Np.ndarray F)
          (i : nat) (a b : F),
      Np.floats t !! i = Some a ->
      Np.floats t !! S i = Some b ->
      exists g, Script.growth t t = Ok (Np.FloatArray g)
                /\ g !! i = Some (fdiv b a))
  /\ (forall (F : Type) (ops : Float64Ops F) (e : Eff.env F)
             (w' : Eff.world F),
        Obs.sorting_on_sample e Script.initial_world = (Ok tt, w') ->
        Obs.bar_heights (Eff.trace w')
        = [Np.FloatArray
             (Obs.quotients (Np.floats (Np.array Script.bubble_literal)));
           Np.FloatArray
             (Obs.quotients (Np.floats (Np.array Script.merge_literal)))])
  /\ (forall (pw : float -> float -> float) (lg : float -> float),
        let ops := Binary64.ops pw lg in
        Np.array (ops := ops) Script.sizes_literal
        = Np.IntArray [1000; 2000; 5000; 10000; 20000]%Z
        /\ Np.floats (ops := ops) (Np.array Script.bubble_literal)
           = [12; 45; 280; 1100; 4400]%float
        /\ Obs.quotients (ops := ops)
             (Np.floats (Np.array Script.bubble_literal)) !! 0%nat
           = Some (45 / 12)%float
        /\ (45 / 12 = 3.75)%float).
Proof.
  split; [|split].
  - intros F ops t i a b Ha Hb. exists (Obs.quotients (Np.floats t)). split.
    + apply growth_quotients.
    + now apply quotients_lookup.
  - intros F ops e w' Hrun.
    apply faultless_sorting_on_sample in Hrun.
    replace w' with (snd (Obs.sorting_on_sample Obs.no_faults
                            Script.initial_world))
      by (rewrite Hrun; reflexivity).
    vm_compute. reflexivity.
  - intros pw lg ops. repeat split; reflexivity.
Qed.

Lemma growth_bars_witness :
  (exists g,
      Script.growth (ops := Ideal.ops) (Np.IntArray [12; 45]%Z)
                    (Np.IntArray [12; 45]%Z)
      = Ok (Np.FloatArray g)
      /\ g !! 0%nat = Some (45 / 12)%R)
  /\ Obs.bar_heights
       (Eff.trace (snd (Obs.sorting_on_sample (ops := Binary64.arithmetic)
                          Obs.no_faults Script.initial_world)))
     = [Np.FloatArray [3.75; 280 / 45; 1100 / 280; 4]%float;
        Np.FloatArray [2; 3; 25 / 12; 55 / 25]%float].
Proof.
  split.
  - apply (proj1 growth_bars_are_consecutive_quotients R Ideal.ops
             (Np.IntArray [12; 45]%Z) 0%nat 12%R 45%R); reflexivity.
  - apply (proj1 (proj2 growth_bars_are_consecutive_quotients)
             float Binary64.arithmetic Obs.no_faults).
    vm_compute. reflexivity.
Defined.

(** C2: the efficiency ratio is the elementwise quotient of the linear
    timings by the binary timings.  First for any two arrays of one
    length, then for the curve the search routine draws from the sample
    dataset in every run that returns, and last in binary64, where the
    third sample, for size 10000, is [8.5 / 0.018], a number between 472.2
    and 472.3. *)
Theorem efficiency_ratio_is_elementwise_quotient :
  (forall (F : Type) (ops : Float64Ops F) (linear binary : Np.ndarray F),
      Np.len linear = Np.len binary ->
      Script.efficiency_ratio linear binary
      = Ok (Np.FloatArray
              (zip_with fdiv (Np.floats linear) (Np.floats binary))))
  /\ (forall (F : Type) (ops : Float64Ops F) (e : Eff.env F)
             (w' : Eff.world F),
        Obs.search_on_sample e Script.initial_world = (Ok tt, w') ->
        Obs.drawn "plt.plot" "go-" (Eff.trace w')
        = [(Np.array Script.search_sizes_literal,
            Np.FloatArray
              (zip_with fdiv
                 (Np.floats (Np.array Script.linear_literal))
                 (Np.floats (Np.array Script.binary_literal))))])
  /\ (forall (pw : float -> float -> float) (lg : float -> float),
        let ops := Binary64.ops pw lg in
        Np.array (ops := ops) Script.search_sizes_literal
        = Np.IntArray [1000; 5000; 10000; 50000; 100000]%Z
        /\ Np.floats (ops := ops) (Np.array Script.linear_literal)
           = [0.8; 4.2; 8.5; 42; 85]%float
        /\ Np.floats (ops := ops) (Np.array Script.binary_literal)
           = [0.01; 0.015; 0.018; 0.025; 0.028]%float
        /\ zip_with (fdiv (Float64Ops := ops))
             (Np.floats (Np.array Script.linear_literal))
             (Np.floats (Np.array Script.binary_literal)) !! 2%nat
           = Some (8.5 / 0.018)%float
        /\ (472.2 <? 8.5 / 0.018)%float = true
        /\ (8.5 / 0.018 <? 472.3)%float = true).
Proof.
  split; [|split].
  - intros F ops linear binary Hlen. now apply true_divide_elementwise.
  - intros F ops e w' Hrun.
    apply faultless_search_on_sample in Hrun.
    replace w' with (snd (Obs.search_on_sample Obs.no_faults
                            Script.initial_world))
      by (rewrite Hrun; reflexivity).
    vm_compute. reflexivity.
  - intros pw lg ops. repeat split; reflexivity.
Qed.

Lemma efficiency_ratio_witness :
  Script.efficiency_ratio (ops := Binary64.arithmetic)
    (Np.FloatArray [8.5]%float) (Np.FloatArray [0.018]%float)
  = Ok (Np.FloatArray [8.5 / 0.018]%float)
  /\ Obs.drawn "plt.plot" "go-"
       (Eff.trace (snd (Obs.search_on_sample (ops := Binary64.arithmetic)
                          Obs.no_faults Script.initial_world)))
     = [(Np.IntArray [1000; 5000; 10000; 50000; 100000]%Z,
         Np.FloatArray [0.8 / 0.01; 4.2 / 0.015; 8.5 / 0.018; 42 / 0.025;
                        85 / 0.028]%float)].
Proof.
  split.
  - apply (proj1 efficiency_ratio_is_elementwise_quotient
             float Binary64.arithmetic). reflexivity.
  - apply (proj1 (proj2 efficiency_ratio_is_elementwise_quotient)
             float Binary64.arithmetic Obs.no_faults).
    vm_compute. reflexivity.
Defined.

(** ** Output files and confirmation lines *)

Lemma main_returns (F : Type) (ops : Float64Ops F) :
  fst (Script.main Obs.no_faults Script.initial_world) = Ok tt.
Proof. vm_compute. reflexivity. Qed.

(** C5: when [main] returns, the run wrote four images, to
    [sorting_analysis.png], [search_analysis.png], [fibonacci_analysis.png]
    and [complexity_cheatsheet.png] in this order, and printed one
    confirmation line for each, right after the write it confirms and
    before the next write. *)
Theorem main_writes_four_files_and_confirms_each
  (F : Type) (ops : Float64Ops F) (e : Eff.env F) (w' : Eff.world F) :
  Script.main e Script.initial_world = (Ok tt, w') ->
  Obs.saved_paths (Eff.trace w')
  = ["sorting_analysis.png"; "search_analysis.png";
     "fibonacci_analysis.png"; "complexity_cheatsheet.png"]
  /\ Obs.write_log (Eff.trace w')
     = [Obs.Wrote "sorting_analysis.png";
        Obs.Confirmed
          "✓ Sorting algorithm comparison saved as 'sorting_analysis.png'";
        Obs.Wrote "search_analysis.png";
        Obs.Confirmed
          "✓ Search algorithm comparison saved as 'search_analysis.png'";
        Obs.Wrote "fibonacci_analysis.png";
        Obs.Confirmed
          "✓ Fibonacci recursion analysis saved as 'fibonacci_analysis.png'";
        Obs.Wrote "complexity_cheatsheet.png";
        Obs.Confirmed
          "✓ Complexity reference chart saved as 'complexity_cheatsheet.png'"].
Proof.
  intros Hrun. apply faultless_main in Hrun.
  replace w' with (snd (Script.main Obs.no_faults Script.initial_world))
    by (rewrite Hrun; reflexivity).
  vm_compute. split; reflexivity.
Qed.

Lemma main_writes_four_files_witness :
  Obs.saved_paths
    (Eff.trace (snd (Script.main (ops := Binary64.arithmetic)
                       Obs.no_faults Script.initial_world)))
  = ["sorting_analysis.png"; "search_analysis.png";
     "fibonacci_analysis.png"; "complexity_cheatsheet.png"].
Proof.
  apply (main_writes_four_files_and_confirms_each
           float Binary64.arithmetic Obs.no_faults).
  vm_compute. reflexivity.
Defined.

(** The guard can end normally with fewer files: when the library fails
    on the second image, the handler reports it and the two later images
    are never attempted. *)
Lemma guarded_run_with_one_file (F : Type) (ops : Float64Ops F) :
  fst (Script.run_script Obs.disk_full_at_search) = Script.Exit0
  /\ Obs.saved_paths (snd (Script.run_script Obs.disk_full_at_search))
     = ["sorting_analysis.png"].
Proof. vm_compute. split; reflexivity. Qed.

(** ** The dataset on the heap *)

Section Heap.
Context {F : Type} {ops : Float64Ops F}.
Import Eff Script Obs.

Lemma preserves_heap_ret {A} (a : A) : preserves_heap (F := F) (ret a).
Proof. intros e w. reflexivity. Qed.

Lemma preserves_heap_lift {A} (r : result A) :
  preserves_heap (F := F) (lift r).
Proof. intros e w. reflexivity. Qed.

Lemma preserves_heap_print (t : text F) : preserves_heap (print t).
Proof. intros e w. reflexivity. Qed.

Lemma preserves_heap_call fn args kwargs :
  preserves_heap (F := F) (call fn args kwargs).
Proof.
  intros e w. unfold call.
  destruct (call_fault e (trace w) (Call fn args kwargs)); reflexivity.
Qed.

Lemma preserves_heap_getkey data key :
  preserves_heap (F := F) (getkey data key).
Proof.
  intros e w. unfold getkey.
  destruct (heap w !! data) as [d|]; [|reflexivity].
  destruct (d !! key); reflexivity.
Qed.

Lemma preserves_heap_bind {A B} (m : M F A) (k : A -> M F B) :
  preserves_heap m -> (forall a, preserves_heap (k a)) ->
  preserves_heap (bind m k).
Proof.
  intros Hm Hk e w. unfold bind. specialize (Hm e w).
  destruct (m e w) as [[a|x] w1]; simpl in Hm.
  - rewrite Hk. exact Hm.
  - exact Hm.
Qed.

Lemma preserves_heap_for_each {A} (l : list A) (body : A -> M F unit) :
  (forall a, preserves_heap (body a)) -> preserves_heap (for_each l body).
Proof.
  intros Hbody. induction l as [|a l IH]; simpl.
  - apply preserves_heap_ret.
  - apply preserves_heap_bind; [apply Hbody | intros _; exact IH].
Qed.

Lemma preserves_heap_comprehension {A B} (l : list A) (f : A -> M F B) :
  (forall a, preserves_heap (f a)) -> preserves_heap (comprehension l f).
Proof.
  intros Hf. induction l as [|a l IH]; simpl.
  - apply preserves_heap_ret.
  - apply preserves_heap_bind; [apply Hf | intros b].
    apply preserves_heap_bind; [exact IH | intros bs; apply preserves_heap_ret].
Qed.

(** The same closure properties for computations that do not read the
    heap; [getkey] and [alloc] are not among them. *)
Lemma heap_blind_ret {A} (a : A) : heap_blind (F := F) (ret a).
Proof. intros e w1 w2 Htr. split; [reflexivity | exact Htr]. Qed.

Lemma heap_blind_lift {A} (r : result A) : heap_blind (F := F) (lift r).
Proof. intros e w1 w2 Htr. split; [reflexivity | exact Htr]. Qed.

Lemma heap_blind_print (t : text F) : heap_blind (print t).
Proof.
  intros e w1 w2 Htr. split; [reflexivity|]. simpl. now rewrite Htr.
Qed.

Lemma heap_blind_call fn args kwargs :
  heap_blind (F := F) (call fn args kwargs).
Proof.
  intros e w1 w2 Htr. unfold call. rewrite Htr.
  destruct (call_fault e (trace w2) (Call fn args kwargs)); simpl.
  - split; [reflexivity | exact Htr].
  - split; [reflexivity | now rewrite Htr].
Qed.

Lemma heap_blind_bind {A B} (m : M F A) (k : A -> M F B) :
  heap_blind m -> (forall a, heap_blind (k a)) -> heap_blind (bind m k).
Proof.
  intros Hm Hk e w1 w2 Htr. unfold bind.
  destruct (Hm e w1 w2 Htr) as [Hres Htr'].
  destruct (m e w1) as [r1 v1], (m e w2) as [r2 v2]. simpl in Hres, Htr'.
  subst r2. destruct r1 as [a|x].
  - apply Hk. exact Htr'.
  - split; [reflexivity | exact Htr'].
Qed.

Lemma heap_blind_for_each {A} (l : list A) (body : A -> M F unit) :
  (forall a, heap_blind (body a)) -> heap_blind (for_each l body).
Proof.
  intros Hbody. induction l as [|a l IH]; simpl.
  - apply heap_blind_ret.
  - apply heap_blind_bind; [apply Hbody | intros _; exact IH].
Qed.

End Heap.

Ltac preserves_heap_step :=
  first
    [ apply preserves_heap_bind; [|intro]
    | apply preserves_heap_for_each; intro
    | apply preserves_heap_comprehension; intro
    | apply preserves_heap_call
    | apply preserves_heap_print
    | apply preserves_heap_getkey
    | apply preserves_heap_lift
    | apply preserves_heap_ret
    | match goal with
      | |- Obs.preserves_heap (match ?p with pair _ _ => _ end) => destruct p
      end ].

Ltac heap_blind_step :=
  first
    [ apply heap_blind_bind; [|intro]
    | apply heap_blind_for_each; intro
    | apply heap_blind_call
    | apply heap_blind_print
    | apply heap_blind_lift
    | apply heap_blind_ret
    | match goal with
      | |- Obs.heap_blind (match ?p with pair _ _ => _ end) => destruct p
      end ].

Section HeapScript.
Context {F : Type} {ops : Float64Ops F}.
Import Eff Script Obs.

Lemma run_bind_print {B} (t : text F) (k : unit -> M F B) e w :
  bind (print t) k e w = k tt e (emit (Print t) w).
Proof. reflexivity. Qed.

Lemma run_bind_alloc {B} d (k : loc -> M F B) e w :
  bind (alloc d) k e w
  = k (next_loc w) e
      {| heap := <[next_loc w := d]> (heap w);
         next_loc := S (next_loc w);
         trace := trace w |}.
Proof. reflexivity. Qed.

Lemma preserves_heap_plot_sorting data :
  preserves_heap (plot_sorting_comparison data).
Proof.
  unfold plot_sorting_comparison, series, grid. repeat preserves_heap_step.
Qed.

Lemma preserves_heap_plot_search data :
  preserves_heap (plot_search_comparison data).
Proof.
  unfold plot_search_comparison, series, grid. repeat preserves_heap_step.
Qed.

Lemma preserves_heap_plot_fibonacci : preserves_heap plot_fibonacci_analysis.
Proof.
  unfold plot_fibonacci_analysis, grid. repeat preserves_heap_step.
Qed.

Lemma preserves_heap_cheatsheet : preserves_heap create_complexity_cheatsheet.
Proof.
  unfold create_complexity_cheatsheet. repeat preserves_heap_step.
Qed.

Lemma heap_blind_plot_fibonacci : heap_blind plot_fibonacci_analysis.
Proof.
  unfold plot_fibonacci_analysis, grid. repeat heap_blind_step.
Qed.

Lemma heap_blind_cheatsheet : heap_blind create_complexity_cheatsheet.
Proof.
  unfold create_complexity_cheatsheet. repeat heap_blind_step.
Qed.

End HeapScript.

(** The two properties tell computations apart: an assignment to a key
    changes the heap, and a lookup depends on it. *)
Lemma setkey_changes_heap (F : Type) (ops : Float64Ops F) :
  ~ Obs.preserves_heap (F := F)
      (Eff.setkey 0%nat "sizes" (Np.IntArray [])).
Proof.
  intros Hpre.
  specialize (Hpre Obs.no_faults
                {| Eff.heap := {[ 0%nat := ∅ ]};
                   Eff.next_loc := 1; Eff.trace := [] |}).
  apply (f_equal (fun h => h !! 0%nat ≫= (fun d => d !! "sizes"))) in Hpre.
  vm_compute in Hpre. discriminate.
Qed.

Lemma getkey_reads_heap (F : Type) (ops : Float64Ops F) :
  ~ Obs.heap_blind (F := F) (Eff.getkey 0%nat "sizes").
Proof.
  intros Hblind.
  destruct (Hblind Obs.no_faults
              {| Eff.heap := {[ 0%nat := Script.sample_dict ]};
                 Eff.next_loc := 1; Eff.trace := [] |}
              Script.initial_world eq_refl) as [Hres _].
  vm_compute in Hres. discriminate.
Qed.

(** C7: the two routines that receive the dataset only read it.  Run one
    after the other from any world, with any reference, under any
    behaviour of the library and however either of them ends, they leave
    the heap as it was, each of them and both in sequence; and whatever
    happens in [main], the heap then holds exactly the dataset the
    constructor built. *)
Theorem dataset_never_mutated
  (F : Type) (ops : Float64Ops F) (e : Eff.env F) :
  (forall (data : Eff.loc) (w : Eff.world F),
      Eff.heap (snd (Script.plot_sorting_comparison data e w)) = Eff.heap w)
  /\ (forall (data : Eff.loc) (w : Eff.world F),
        Eff.heap (snd (Script.plot_search_comparison data e w)) = Eff.heap w)
  /\ (forall (data : Eff.loc) (w : Eff.world F),
        Eff.heap
          (snd (Eff.bind (Script.plot_sorting_comparison data)
                  (fun _ => Script.plot_search_comparison data) e w))
        = Eff.heap w)
  /\ Eff.heap (snd (Script.main e Script.initial_world))
     = {[ 0%nat := Script.sample_dict ]}.
Proof.
  repeat split.
  - intros data w. apply preserves_heap_plot_sorting.
  - intros data w. apply preserves_heap_plot_search.
  - intros data w.
    apply (preserves_heap_bind (Script.plot_sorting_comparison data)
             (fun _ => Script.plot_search_comparison data)).
    + apply preserves_heap_plot_sorting.
    + intros _. apply preserves_heap_plot_search.
  - unfold Script.main, Script.say, Script.create_sample_data.
    rewrite !run_bind_print, run_bind_alloc.
    match goal with
    | |- Eff.heap (snd (Eff.bind ?m ?k e ?w)) = _ =>
        rewrite (preserves_heap_bind m k)
    end.
    + simpl. apply insert_empty.
    + apply preserves_heap_print.
    + intros _.
      repeat first
        [ apply preserves_heap_plot_sorting | apply preserves_heap_plot_search
        | apply preserves_heap_plot_fibonacci | apply preserves_heap_cheatsheet
        | preserves_heap_step ].
Qed.

(** C8: the recursion routine has no parameter and does not read the
    heap: run from two worlds that differ in their objects (one holding
    the sample dataset, the other anything else) and agree on what has
    been done so far, it ends the same way and draws the same things, and
    it leaves the objects alone. *)
Theorem fibonacci_ignores_dataset
  (F : Type) (ops : Float64Ops F) (e : Eff.env F) (w1 w2 : Eff.world F) :
  Eff.trace w1 = Eff.trace w2 ->
  fst (Script.plot_fibonacci_analysis e w1)
  = fst (Script.plot_fibonacci_analysis e w2)
  /\ Eff.trace (snd (Script.plot_fibonacci_analysis e w1))
     = Eff.trace (snd (Script.plot_fibonacci_analysis e w2))
  /\ Eff.heap (snd (Script.plot_fibonacci_analysis e w1)) = Eff.heap w1
  /\ Eff.heap (snd (Script.plot_fibonacci_analysis e w2)) = Eff.heap w2.
Proof.
  intros Htr.
  destruct (heap_blind_plot_fibonacci e w1 w2 Htr) as [Hres Htr'].
  repeat split; try assumption; apply preserves_heap_plot_fibonacci.
Qed.

Lemma fibonacci_ignores_dataset_witness :
  Eff.trace
    (snd (Script.plot_fibonacci_analysis (ops := Binary64.arithmetic)
            Obs.no_faults Script.initial_world))
  = Eff.trace
      (snd (Script.plot_fibonacci_analysis (ops := Binary64.arithmetic)
              Obs.no_faults
              {| Eff.heap := {[ 0%nat := Script.sample_dict (ops := Binary64.arithmetic) ]};
                 Eff.next_loc := 1;
                 Eff.trace := [] |})).
Proof.
  apply (fibonacci_ignores_dataset float Binary64.arithmetic Obs.no_faults
           Script.initial_world
           {| Eff.heap := {[ 0%nat := Script.sample_dict (ops := Binary64.arithmetic) ]};
              Eff.next_loc := 1;
              Eff.trace := [] |}).
  reflexivity.
Defined.

(** C9: the constructor takes no input and always builds the same
    dictionary, the one printed in the source.  Whatever the environment
    and the world, an invocation returns a fresh reference to
    [sample_dict]; two invocations in a row return two references to equal
    dictionaries; and [sample_dict] has the eight keys of the [return]
    statement, each bound to the numbers of lines 22-33: four [int64]
    arrays of sorting data, the quick-sort timings as [float64], the
    search sizes as [int64], and the two search timings as [float64].  The
    decimal literals are quotients of integers in any arithmetic, and the
    binary64 numbers of the same spelling in the interpreter's. *)
Theorem create_sample_data_deterministic :
  (forall (F : Type) (ops : Float64Ops F) (e1 e2 : Eff.env F)
          (w1 w2 : Eff.world F),
      (fst (Script.create_sample_data e1 w1) = Ok (Eff.next_loc w1)
       /\ Eff.heap (snd (Script.create_sample_data e1 w1)) !! Eff.next_loc w1
          = Some Script.sample_dict)
      /\ (fst (Script.create_sample_data e2 w2) = Ok (Eff.next_loc w2)
          /\ Eff.heap (snd (Script.create_sample_data e2 w2))
               !! Eff.next_loc w2
             = Some Script.sample_dict)
      /\ (let twice :=
            Eff.bind Script.create_sample_data (fun d1 =>
            Eff.bind Script.create_sample_data (fun d2 => Eff.ret (d1, d2))) in
          fst (twice e1 w1) = Ok (Eff.next_loc w1, S (Eff.next_loc w1))
          /\ Eff.heap (snd (twice e1 w1)) !! Eff.next_loc w1
             = Some Script.sample_dict
          /\ Eff.heap (snd (twice e1 w1)) !! S (Eff.next_loc w1)
             = Some Script.sample_dict)
      /\ Script.sample_dict
         = list_to_map
             [("sizes", Np.IntArray [1000; 2000; 5000; 10000; 20000]%Z);
              ("bubble", Np.IntArray [12; 45; 280; 1100; 4400]%Z);
              ("insertion", Np.IntArray [8; 30; 190; 750; 3000]%Z);
              ("merge", Np.IntArray [2; 4; 12; 25; 55]%Z);
              ("quick",
               Np.FloatArray
                 [fdiv (of_int 15) (of_int 10); fdiv (of_int 35) (of_int 10);
                  of_int 10; of_int 22; of_int 48]);
              ("search_sizes",
               Np.IntArray [1000; 5000; 10000; 50000; 100000]%Z);
              ("linear",
               Np.FloatArray
                 [fdiv (of_int 8) (of_int 10); fdiv (of_int 42) (of_int 10);
                  fdiv (of_int 85) (of_int 10); of_int 42; of_int 85]);
              ("binary",
               Np.FloatArray
                 [fdiv (of_int 1) (of_int 100); fdiv (of_int 15) (of_int 1000);
                  fdiv (of_int 18) (of_int 1000);
                  fdiv (of_int 25) (of_int 1000);
                  fdiv (of_int 28) (of_int 1000)])]
      /\ size Script.sample_dict = 8%nat)
  /\ (forall (libm_pow : float -> float -> float)
             (libm_log2 : float -> float),
        Script.sample_dict (ops := Binary64.ops libm_pow libm_log2)
        = list_to_map
            [("sizes", Np.IntArray [1000; 2000; 5000; 10000; 20000]%Z);
             ("bubble", Np.IntArray [12; 45; 280; 1100; 4400]%Z);
             ("insertion", Np.IntArray [8; 30; 190; 750; 3000]%Z);
             ("merge", Np.IntArray [2; 4; 12; 25; 55]%Z);
             ("quick", Np.FloatArray [1.5; 3.5; 10; 22; 48]%float);
             ("search_sizes",
              Np.IntArray [1000; 5000; 10000; 50000; 100000]%Z);
             ("linear", Np.FloatArray [0.8; 4.2; 8.5; 42; 85]%float);
             ("binary",
              Np.FloatArray [0.01; 0.015; 0.018; 0.025; 0.028]%float)]).
Proof.
  split.
  - intros F ops e1 e2 w1 w2. repeat split.
    + simpl. apply lookup_insert_eq.
    + simpl. apply lookup_insert_eq.
    + simpl. rewrite lookup_insert_ne by lia. apply lookup_insert_eq.
    + simpl. apply lookup_insert_eq.
  - intros libm_pow libm_log2.
    unfold Script.sample_dict. cbv zeta.
    replace (Np.array (ops := Binary64.ops libm_pow libm_log2)
               Script.quick_literal)
      with (Np.FloatArray [1.5; 3.5; 10; 22; 48]%float)
      by (vm_compute; reflexivity).
    replace (Np.array (ops := Binary64.ops libm_pow libm_log2)
               Script.linear_literal)
      with (Np.FloatArray [0.8; 4.2; 8.5; 42; 85]%float)
      by (vm_compute; reflexivity).
    replace (Np.array (ops := Binary64.ops libm_pow libm_log2)
               Script.binary_literal)
      with (Np.FloatArray [0.01; 0.015; 0.018; 0.025; 0.028]%float)
      by (vm_compute; reflexivity).
    reflexivity.
Qed.

(** ** The complexity reference *)

Section Curves.
Context {F : Type} {ops : Float64Ops F}.
Import Script.

(** [2 ** np.log2(n)], element by element. *)
Lemma curve_exponential_elements (n : Np.ndarray F) :
  curve_exponential n
  = Ok (Np.FloatArray
          (map (fun x => fpow (of_int 2) (flog2 x)) (Np.floats n))).
Proof.
  unfold curve_exponential, Np.sc_arr, Np.log2, num. simpl Np.elems.
  rewrite (mapM_map_total _ _ (fun x => Np.SFloat (fpow (of_int 2) x)))
    by reflexivity.
  simpl. do 2 f_equal. rewrite !map_map. reflexivity.
Qed.

Lemma floats_logspace (a b : Np.scalar F) (num : nat) :
  Np.floats (Np.logspace a b num)
  = map (fpow (of_int 10)) (Np.floats (Np.linspace a b num)).
Proof.
  unfold Np.logspace, Np.floats at 1. simpl Np.elems.
  rewrite map_map. simpl. apply map_id.
Qed.

Lemma floats_FloatArray (l : list F) : Np.floats (Np.FloatArray l) = l.
Proof. unfold Np.floats. simpl. rewrite map_map. apply map_id. Qed.

(** The first sample of a linspace of two points or more. *)
Lemma linspace_first (a b : Np.scalar F) (d : nat) :
  Np.floats (Np.linspace a b (S (S d))) !! 0%nat
  = Some (fadd (fmul (of_int 0)
                  (fdiv (fsub (Np.to_float b) (Np.to_float a))
                        (of_int (Z.of_nat (S d)))))
            (Np.to_float a)).
Proof. unfold Np.linspace. rewrite floats_FloatArray. reflexivity. Qed.

End Curves.

Section IdealCurves.
Import Script.
Local Open Scope R_scope.
#[local] Existing Instance Ideal.ops.

Lemma half_lt_ln_2 : 1 / 2 < ln 2.
Proof.
  assert (Hsq : exp (1 / 2) * exp (1 / 2) <= 3).
  { rewrite <- exp_plus. replace (1 / 2 + 1 / 2) with 1 by lra.
    apply exp_le_3. }
  assert (Hpos := exp_pos (1 / 2)).
  assert (Hlt : exp (1 / 2) < 2) by nra.
  rewrite <- (ln_exp (1 / 2)). apply ln_increasing; assumption.
Qed.

(** A positive number is below two to its power. *)
Lemma lt_Rpower_2 (x : R) : 0 < x -> x < Rpower 2 x.
Proof.
  intros Hx. unfold Rpower.
  assert (Hln := half_lt_ln_2).
  assert (Hstep : exp (x / 2) < exp (x * ln 2))
    by (apply exp_increasing; nra).
  assert (Hquarter := exp_ineq1_le (x / 4)).
  assert (Hsplit : exp (x / 2) = exp (x / 4) * exp (x / 4)).
  { rewrite <- exp_plus. f_equal. lra. }
  assert (Hsquare : (1 + x / 4) * (1 + x / 4) <= exp (x / 4) * exp (x / 4))
    by (apply Rmult_le_compat; lra).
  assert (Hbelow : x <= (1 + x / 4) * (1 + x / 4))
    by (pose proof (Rle_0_sqr (1 - x / 4)) as Hsqr; unfold Rsqr in Hsqr; lra).
  lra.
Qed.

Lemma Rpower_2_log2 (x : R) : 0 < x -> Rpower 2 (Ideal.log2 x) = x.
Proof.
  intros Hx. unfold Rpower, Ideal.log2.
  replace (ln x / ln 2 * ln 2) with (ln x).
  - now apply exp_ln.
  - assert (Hln := half_lt_ln_2). field. lra.
Qed.

Lemma domain_positive :
  Forall (fun x => 0 < x) (Np.floats domain).
Proof.
  unfold domain. rewrite floats_logspace. apply Forall_map.
  apply Forall_forall. intros y _. apply exp_pos.
Qed.

End IdealCurves.

Section Cheatsheet.
Import Script.
Local Open Scope R_scope.
#[local] Existing Instance Ideal.ops.

Lemma lookup_map_first {A B} (f : A -> B) (l : list A) :
  map f l !! 0%nat = option_map f (l !! 0%nat).
Proof. destruct l; reflexivity. Qed.

Lemma domain_first : Np.floats domain !! 0%nat = Some 10.
Proof.
  unfold domain. rewrite floats_logspace, lookup_map_first, linspace_first.
  simpl. f_equal.
  replace (0 * _ + 1) with 1 by ring.
  apply Rpower_1. lra.
Qed.

Lemma Rpower_2_10 : Rpower 2 10 = 1024.
Proof.
  replace 10 with (INR 10) by (simpl; lra).
  rewrite Rpower_pow by lra. simpl. lra.
Qed.

Lemma exponential_curve_on_domain : curve_exponential domain = Ok domain.
Proof.
  assert (Hd : domain = Np.FloatArray (Np.floats domain)).
  { unfold domain, Np.logspace. now rewrite floats_FloatArray. }
  rewrite curve_exponential_elements.
  transitivity (Ok (A := Np.ndarray R) (Np.FloatArray (Np.floats domain)));
    [|now rewrite <- Hd].
  do 2 f_equal. rewrite <- (map_id (Np.floats domain)) at 2.
  apply map_ext_in. intros x Hx.
  apply Rpower_2_log2.
  exact (proj1 (List.Forall_forall _ _) domain_positive x Hx).
Qed.

End Cheatsheet.

Section Reference.
#[local] Existing Instance Ideal.ops.

(** C4, as the code has it: the reference chart draws six curves under
    the labels O(1), O(log n), O(n), O(n log n), O(n²) and O(2ⁿ) and three
    bands.  The curve under the label O(2ⁿ) is [2 ** log2(n)]: in exact
    arithmetic it is the sampled domain itself, the curve drawn under
    O(n); its first sample, at [n = 10], is 10 where two to the power [n]
    is 1024, and at every sample it lies below two to the power [n]. *)
Theorem curve_labelled_exponential_is_the_identity :
  (forall (F : Type) (ops : Float64Ops F),
      let tr := Eff.trace (snd (Script.create_complexity_cheatsheet
                                  Obs.no_faults Script.initial_world)) in
      Obs.labels "ax.loglog" tr
      = ["O(1) - Hash table lookup"; "O(log n) - Binary search";
         "O(n) - Linear search"; "O(n log n) - Merge/Quick sort";
         "O(n²) - Bubble/Insertion sort"; "O(2ⁿ) - Naive Fibonacci"]
      /\ Obs.labels "ax.axvspan" tr
         = ["Small n: Simple algorithms OK"; "Medium n: Efficiency matters";
            "Large n: Only efficient algorithms"]
      /\ nth_error (Script.curves (F := F)) 5
         = Some ("O(2ⁿ) - Naive Fibonacci", Script.curve_exponential)
      /\ nth_error (Script.curves (F := F)) 2
         = Some ("O(n) - Linear search", Script.curve_linear))
  /\ Script.curve_exponential (F := R) Script.domain = Ok Script.domain
  /\ Script.curve_linear (F := R) Script.domain = Ok Script.domain
  /\ Np.floats (F := R) Script.domain !! 0%nat = Some 10%R
  /\ Rpower 2 10 = 1024%R
  /\ Forall (fun n : R => (n < Rpower 2 n)%R) (Np.floats Script.domain).
Proof.
  split; [|repeat split].
  - intros F ops tr. subst tr.
    split; [vm_compute; reflexivity|].
    split; [vm_compute; reflexivity|].
    split; reflexivity.
  - apply exponential_curve_on_domain.
  - apply domain_first.
  - apply Rpower_2_10.
  - apply (List.Forall_impl _ lt_Rpower_2). apply domain_positive.
Qed.

End Reference.

(** ** What the handlers catch *)

Section Exceptions.
Context {F : Type} {ops : Float64Ops F}.
Import Eff Script Obs.

Lemma benign_Ok {A} (a : A) : benign (Ok a).
Proof. intros x Hx. discriminate. Qed.

Lemma benign_rbind {A B} (r : result A) (k : A -> result B) :
  benign r -> (forall a, benign (k a)) -> benign (rbind r k).
Proof.
  intros Hr Hk x. destruct r as [a|y]; simpl.
  - exact (Hk a x).
  - intros Hx. apply Hr. congruence.
Qed.

Lemma benign_mapM {A B} (f : A -> result B) (l : list A) :
  (forall a, benign (f a)) -> benign (Np.mapM f l).
Proof.
  intros Hf. induction l as [|a l IH]; simpl.
  - apply benign_Ok.
  - apply benign_rbind; [apply Hf | intros b].
    apply benign_rbind; [exact IH | intros bs; apply benign_Ok].
Qed.

Lemma benign_getitem (a : Np.ndarray F) i : benign (Np.getitem a i).
Proof.
  intros x. unfold Np.getitem.
  destruct (norm_index (Np.len a) i) as [k|].
  - destruct (nth_error (Np.elems a) k); intros Hx; inversion Hx; reflexivity.
  - intros Hx; inversion Hx; reflexivity.
Qed.

Lemma benign_scalar_op op (x y : Np.scalar F) : benign (Np.scalar_op op x y).
Proof.
  intros z. destruct op, x as [a|a], y as [b|b]; simpl; try discriminate.
  destruct (b <? 0)%Z; simpl; intros Hz; inversion Hz; reflexivity.
Qed.

Lemma benign_broadcast (xs ys : list (Np.scalar F)) :
  benign (Np.broadcast xs ys).
Proof.
  intros z. unfold Np.broadcast.
  destruct (Nat.eqb (length xs) (length ys)); [discriminate|].
  destruct xs as [|x [|x' xs]], ys as [|y [|y' ys]];
    intros Hz; inversion Hz; reflexivity.
Qed.

Lemma benign_arr_arr op (a b : Np.ndarray F) : benign (Np.arr_arr op a b).
Proof.
  unfold Np.arr_arr. apply benign_rbind; [apply benign_broadcast | intros ps].
  apply benign_rbind; [|intros rs; apply benign_Ok].
  apply benign_mapM. intros p. apply benign_scalar_op.
Qed.

Lemma benign_arr_sc op (a : Np.ndarray F) s : benign (Np.arr_sc op a s).
Proof.
  unfold Np.arr_sc. apply benign_rbind; [|intros rs; apply benign_Ok].
  apply benign_mapM. intros p. apply benign_scalar_op.
Qed.

Lemma benign_sc_arr op s (a : Np.ndarray F) : benign (Np.sc_arr op s a).
Proof.
  unfold Np.sc_arr. apply benign_rbind; [|intros rs; apply benign_Ok].
  apply benign_mapM. intros p. apply benign_scalar_op.
Qed.

Lemma benign_curve c (n : Np.ndarray F) : In c curves -> benign (snd c n).
Proof.
  unfold curves. simpl.
  intros [<-|[<-|[<-|[<-|[<-|[<-|[]]]]]]]; simpl;
    first [ apply benign_Ok | apply benign_arr_arr | apply benign_arr_sc
          | apply benign_sc_arr ].
Qed.

Lemma raises_exceptions_ret {A} (a : A) : raises_exceptions (F := F) (ret a).
Proof. intros e w x w' _ Hrun. discriminate. Qed.

Lemma raises_exceptions_lift {A} (r : result A) :
  benign r -> raises_exceptions (F := F) (lift r).
Proof.
  intros Hr e w x w' _ Hrun. apply Hr. unfold lift in Hrun. congruence.
Qed.

Lemma raises_exceptions_print (t : text F) : raises_exceptions (print t).
Proof. intros e w x w' _ Hrun. discriminate. Qed.

Lemma raises_exceptions_alloc d : raises_exceptions (F := F) (alloc d).
Proof. intros e w x w' _ Hrun. discriminate. Qed.

Lemma raises_exceptions_call fn args kwargs :
  raises_exceptions (F := F) (call fn args kwargs).
Proof.
  intros e w x w' He. unfold call.
  destruct (call_fault e (trace w) (Call fn args kwargs)) as [y|] eqn:Ey;
    [|discriminate].
  intros Hrun. injection Hrun as <- _. exact (He _ _ _ Ey).
Qed.

Lemma raises_exceptions_getkey data key :
  raises_exceptions (F := F) (getkey data key).
Proof.
  intros e w x w' _. unfold getkey.
  destruct (heap w !! data) as [d|].
  - destruct (d !! key); intros Hrun; inversion Hrun; reflexivity.
  - intros Hrun; inversion Hrun; reflexivity.
Qed.

Lemma raises_exceptions_bind {A B} (m : M F A) (k : A -> M F B) :
  raises_exceptions m -> (forall a, raises_exceptions (k a)) ->
  raises_exceptions (bind m k).
Proof.
  intros Hm Hk e w x w' He. unfold bind.
  destruct (m e w) as [[a|y] w1] eqn:Em.
  - apply Hk. exact He.
  - intros Hrun. injection Hrun as <- _. exact (Hm _ _ _ _ He Em).
Qed.

Lemma raises_exceptions_for_each {A} (l : list A) (body : A -> M F unit) :
  (forall a, In a l -> raises_exceptions (body a)) ->
  raises_exceptions (for_each l body).
Proof.
  induction l as [|a l IH]; intros Hbody; simpl.
  - apply raises_exceptions_ret.
  - apply raises_exceptions_bind.
    + apply Hbody. now left.
    + intros _. apply IH. intros b Hb. apply Hbody. now right.
Qed.

Lemma raises_exceptions_comprehension {A B} (l : list A) (f : A -> M F B) :
  (forall a, raises_exceptions (f a)) ->
  raises_exceptions (comprehension l f).
Proof.
  intros Hf. induction l as [|a l IH]; simpl.
  - apply raises_exceptions_ret.
  - apply raises_exceptions_bind; [apply Hf | intros b].
    apply raises_exceptions_bind;
      [exact IH | intros bs; apply raises_exceptions_ret].
Qed.

End Exceptions.

Ltac raises_exceptions_step :=
  first
    [ apply raises_exceptions_bind; [|intro]
    | apply raises_exceptions_for_each; intros ? ?
    | apply raises_exceptions_comprehension; intro
    | apply raises_exceptions_call
    | apply raises_exceptions_print
    | apply raises_exceptions_getkey
    | apply raises_exceptions_alloc
    | apply raises_exceptions_ret
    | apply raises_exceptions_lift;
      first [ apply benign_getitem | apply benign_arr_arr
            | apply benign_arr_sc | apply benign_sc_arr
            | apply benign_scalar_op | apply benign_curve; assumption ]
    | match goal with
      | |- Obs.raises_exceptions (match ?p with pair _ _ => _ end) =>
          destruct p
      end ].

Section ExceptionsScript.
Context {F : Type} {ops : Float64Ops F}.
Import Eff Script Obs.

Lemma raises_exceptions_main : raises_exceptions main.
Proof.
  unfold main, say, create_sample_data, plot_sorting_comparison,
    plot_search_comparison, plot_fibonacci_analysis,
    create_complexity_cheatsheet, series, grid, growth, efficiency_ratio.
  repeat raises_exceptions_step.
Qed.

End ExceptionsScript.

Section Guard.
Context {F : Type} {ops : Float64Ops F}.
Import Eff Script Obs.

(** What the [try] statement does with [main], when the library raises
    nothing outside [Exception]: it ends normally; an exception of class
    [ImportError] raised inside [main] gets the installation hint, any
    other one the generic message. *)
Lemma guarded_main_ends_normally (e : env F) (w : world F) :
  well_behaved e ->
  fst (guarded_main e w) = Ok tt
  /\ match main e w with
     | (Ok _, w1) => snd (guarded_main e w) = w1
     | (Raise x, w1) =>
         trace (snd (guarded_main e w))
         = trace w1 ++
           (if isinstance x ImportError
            then [Print [Lit "Missing required package: "; FmtExn x];
                  Print [Lit "Install with: pip install matplotlib pandas numpy"]]
            else [Print [Lit "Error: "; FmtExn x];
                  Print [Lit "Make sure you have the required data and packages installed."]])
     end.
Proof.
  intros He. unfold guarded_main, try_except.
  destruct (main e w) as [[[]|x] w1] eqn:Emain.
  - split; reflexivity.
  - assert (Hx := raises_exceptions_main e w x w1 He Emain).
    simpl select_handler. destruct (isinstance x ImportError).
    + split; [reflexivity|]. simpl. now rewrite <- app_assoc.
    + rewrite Hx. split; [reflexivity|]. simpl. now rewrite <- app_assoc.
Qed.

Lemma run_bind_import {B} name (k : unit -> M F B) (e : env F) w :
  import_fault e name = None -> bind (import_module name) k e w = k tt e w.
Proof. intros Hname. unfold bind, import_module. now rewrite Hname. Qed.

(** With the four modules importable and a library that raises nothing
    outside [Exception], the program ends normally. *)
Lemma guarded_run_ends_normally (e : env F) :
  imports_succeed e -> well_behaved e -> fst (run_script e) = Exit0.
Proof.
  intros Himp He. unfold run_script, script.
  repeat match goal with
         | H : Forall _ (_ :: _) |- _ => inversion H; subst; clear H
         | H : imports_succeed _ |- _ => unfold imports_succeed in H
         end.
  rewrite !run_bind_import by assumption. rewrite String.eqb_refl.
  destruct (guarded_main_ends_normally e initial_world He) as [Hok _].
  destruct (guarded_main e initial_world) as [[[]|x] w1]; simpl in Hok.
  - reflexivity.
  - discriminate.
Qed.

(** An interrupt from the keyboard is not an error of the program: the
    language keeps its class outside [Exception] so that a handler such as
    the second one lets it through, and it ends the run. *)
Lemma interrupt_leaves_the_program :
  fst (run_script interrupted_at_show)
  = Uncaught (Exn KeyboardInterrupt "").
Proof. vm_compute. reflexivity. Qed.

End Guard.

(** C1, where the code departs from it: on an installation without
    matplotlib the very first import raises [ModuleNotFoundError], an
    [ImportError] for which the guard has a handler with an installation
    hint; but the import statements stand before the [try], so the
    exception leaves the program uncaught and nothing is printed. *)
Theorem missing_dependency_escapes_the_handlers
  (F : Type) (ops : Float64Ops F) :
  let missing := Exn ModuleNotFoundError "No module named 'matplotlib'" in
  isinstance missing ImportError = true
  /\ Eff.select_handler
       [(ImportError, Script.on_import_error (F := F));
        (Exception, Script.on_exception (F := F))] missing
     = Some (Script.on_import_error missing)
  /\ Script.run_script (F := F) Obs.without_matplotlib
     = (Script.Uncaught missing, []).
Proof.
  intros missing. repeat split.
Qed.

(** * Further properties of the script *)

(** ** The write log under every behaviour of the library *)

Section WriteLog.
Context {F : Type} {ops : Float64Ops F}.
Import Eff Script Obs.

Lemma write_log_emit (ev : event F) w :
  write_log (trace (emit ev w))
  = write_log (trace w) ++ match io_of ev with Some x => [x] | None => [] end.
Proof.
  unfold write_log, emit. simpl. rewrite omap_app. simpl.
  destruct (io_of ev); reflexivity.
Qed.

Lemma logs_quiet {A} (m : M F A) :
  (forall e w, trace (snd (m e w)) = trace w) -> logs [] m.
Proof.
  intros Hm e w. rewrite Hm.
  destruct (fst (m e w)).
  - now rewrite app_nil_r.
  - exists []. split; [apply prefix_nil | now rewrite app_nil_r].
Qed.

Lemma logs_ret {A} (a : A) : logs (F := F) [] (ret a).
Proof. apply logs_quiet. reflexivity. Qed.

Lemma logs_lift {A} (r : result A) : logs (F := F) [] (lift r).
Proof. apply logs_quiet. reflexivity. Qed.

Lemma logs_alloc d : logs (F := F) [] (alloc d).
Proof. apply logs_quiet. reflexivity. Qed.

Lemma logs_getkey data key : logs (F := F) [] (getkey data key).
Proof.
  apply logs_quiet. intros e w. unfold getkey.
  destruct (heap w !! data) as [d|]; [|reflexivity].
  destruct (d !! key); reflexivity.
Qed.

Lemma logs_import name : logs (F := F) [] (import_module name).
Proof.
  apply logs_quiet. intros e w. unfold import_module.
  destruct (import_fault e name); reflexivity.
Qed.

Lemma logs_print (t : text F) :
  logs (match io_of (Print t) with Some x => [x] | None => [] end) (print t).
Proof. intros e w. simpl fst. simpl snd. apply write_log_emit. Qed.

Lemma logs_print_silent (t : text F) :
  io_of (Print t) = None -> logs [] (print t).
Proof. intros Hio. generalize (logs_print t). now rewrite Hio. Qed.

Lemma logs_print_loud (t : text F) x :
  io_of (Print t) = Some x -> logs [x] (print t).
Proof. intros Hio. generalize (logs_print t). now rewrite Hio. Qed.

Lemma logs_call fn args kwargs :
  logs (F := F)
    (match io_of (Call fn args kwargs) with Some x => [x] | None => [] end)
    (call fn args kwargs).
Proof.
  intros e w. unfold call.
  destruct (call_fault e (trace w) (Call fn args kwargs)); simpl fst; simpl snd.
  - exists []. split; [apply prefix_nil | now rewrite app_nil_r].
  - apply write_log_emit.
Qed.

Lemma logs_call_silent fn args kwargs :
  io_of (Call fn args kwargs) = None ->
  logs (F := F) [] (call fn args kwargs).
Proof. intros Hio. generalize (logs_call fn args kwargs). now rewrite Hio. Qed.

Lemma logs_call_loud fn args kwargs x :
  io_of (Call fn args kwargs) = Some x ->
  logs (F := F) [x] (call fn args kwargs).
Proof. intros Hio. generalize (logs_call fn args kwargs). now rewrite Hio. Qed.

Lemma logs_bind {A B} (p1 p2 : list io) (m : M F A) (k : A -> M F B) :
  logs p1 m -> (forall a, logs p2 (k a)) -> logs (p1 ++ p2) (bind m k).
Proof.
  intros Hm Hk e w. unfold bind. specialize (Hm e w).
  destruct (m e w) as [[a|x] w1]; simpl in Hm.
  - specialize (Hk a e w1).
    destruct (k a e w1) as [[b|y] w2]; simpl in Hk |- *.
    + now rewrite Hk, Hm, app_assoc.
    + destruct Hk as [qs [Hqs Hlog]]. exists (p1 ++ qs). split.
      * now apply prefix_app.
      * now rewrite Hlog, Hm, app_assoc.
  - destruct Hm as [qs [Hqs Hlog]]. exists qs. split.
    + now apply prefix_app_r.
    + exact Hlog.
Qed.

Lemma logs_eq {A} (p q : list io) (m : M F A) : logs p m -> p = q -> logs q m.
Proof. now intros Hm <-. Qed.

Lemma logs_bind_silent {A B} (p : list io) (m : M F A) (k : A -> M F B) :
  logs [] m -> (forall a, logs p (k a)) -> logs p (bind m k).
Proof. intros Hm Hk. exact (logs_bind [] p m k Hm Hk). Qed.

Lemma logs_for_each {A} (l : list A) (body : A -> M F unit) :
  (forall a, logs [] (body a)) -> logs [] (for_each l body).
Proof.
  intros Hbody. induction l as [|a l IH]; simpl.
  - apply logs_ret.
  - apply logs_bind_silent; [apply Hbody | intros _; exact IH].
Qed.

Lemma logs_comprehension {A B} (l : list A) (f : A -> M F B) :
  (forall a, logs [] (f a)) -> logs [] (comprehension l f).
Proof.
  intros Hf. induction l as [|a l IH]; simpl.
  - apply logs_ret.
  - apply logs_bind_silent; [apply Hf | intros b].
    apply logs_bind_silent; [exact IH | intros bs; apply logs_ret].
Qed.

Lemma logs_within_of_logs {A} (ps : list io) (m : M F A) :
  logs ps m -> logs_within ps m.
Proof.
  intros Hm e w. specialize (Hm e w). destruct (fst (m e w)).
  - exists ps. split; [reflexivity | exact Hm].
  - exact Hm.
Qed.

End WriteLog.

(** One step through a computation that is silent up to its last write. *)
Ltac logs_silent_step :=
  first
    [ apply logs_bind_silent; [|intro]
    | apply logs_for_each; intro
    | apply logs_comprehension; intro
    | apply logs_call_silent; reflexivity
    | apply logs_print_silent; reflexivity
    | apply logs_getkey
    | apply logs_lift
    | apply logs_alloc
    | apply logs_ret
    | match goal with
      | |- Obs.logs _ (match ?p with pair _ _ => _ end) => destruct p
      end ].

Section WriteLogScript.
Context {F : Type} {ops : Float64Ops F}.
Import Eff Script Obs.

(** A routine that ends with [savefig(path); show()], all silent before. *)
Lemma logs_save_and_show path kwargs :
  logs (F := F) [Wrote path]
    (bind (call "plt.savefig" [AStr path] kwargs)
          (fun _ => call "plt.show" [] [])).
Proof.
  apply (logs_bind [Wrote path] []).
  - apply logs_call_loud. reflexivity.
  - intros _. apply logs_call_silent. reflexivity.
Qed.

Lemma logs_plot_sorting data :
  logs [Wrote "sorting_analysis.png"] (plot_sorting_comparison data).
Proof.
  unfold plot_sorting_comparison, series, grid.
  repeat first [ apply logs_save_and_show | logs_silent_step ].
Qed.

Lemma logs_plot_search data :
  logs [Wrote "search_analysis.png"] (plot_search_comparison data).
Proof.
  unfold plot_search_comparison, series, grid.
  repeat first [ apply logs_save_and_show | logs_silent_step ].
Qed.

Lemma logs_plot_fibonacci :
  logs [Wrote "fibonacci_analysis.png"] plot_fibonacci_analysis.
Proof.
  unfold plot_fibonacci_analysis, grid.
  repeat first [ apply logs_save_and_show | logs_silent_step ].
Qed.

Lemma logs_cheatsheet :
  logs [Wrote "complexity_cheatsheet.png"] create_complexity_cheatsheet.
Proof.
  unfold create_complexity_cheatsheet. cbv zeta.
  generalize (domain (F := F)). intros n.
  repeat first [ apply logs_save_and_show | logs_silent_step ].
Qed.

End WriteLogScript.

Section WriteLogProgram.
Context {F : Type} {ops : Float64Ops F}.
Import Eff Script Obs.

Lemma logs_bind_cons {A B} (x : io) (p : list io) (m : M F A)
      (k : A -> M F B) :
  logs [x] m -> (forall a, logs p (k a)) -> logs (x :: p) (bind m k).
Proof. intros Hm Hk. exact (logs_bind [x] p m k Hm Hk). Qed.

Lemma logs_main :
  logs [Wrote "sorting_analysis.png";
        Confirmed
          "✓ Sorting algorithm comparison saved as 'sorting_analysis.png'";
        Wrote "search_analysis.png";
        Confirmed
          "✓ Search algorithm comparison saved as 'search_analysis.png'";
        Wrote "fibonacci_analysis.png";
        Confirmed
          "✓ Fibonacci recursion analysis saved as 'fibonacci_analysis.png'";
        Wrote "complexity_cheatsheet.png";
        Confirmed
          "✓ Complexity reference chart saved as 'complexity_cheatsheet.png'"]
       main.
Proof.
  unfold main, say, create_sample_data.
  repeat first
    [ apply logs_bind_cons;
      [ solve [ apply logs_plot_sorting | apply logs_plot_search
              | apply logs_plot_fibonacci | apply logs_cheatsheet
              | apply logs_print_loud; reflexivity ]
      | intro ]
    | logs_silent_step ].
Qed.

Lemma select_handler_In (hs : list (exc_class * (exn -> M F unit))) x h :
  select_handler hs x = Some h ->
  exists c h0, In (c, h0) hs /\ h = h0 x.
Proof.
  induction hs as [|[c h0] hs IH]; simpl; [discriminate|].
  destruct (isinstance x c).
  - intros [= <-]. exists c, h0. split; [now left | reflexivity].
  - intros Hsel. destruct (IH Hsel) as [c' [h' [Hin ->]]].
    exists c', h'. split; [now right | reflexivity].
Qed.

(** A [try] statement whose handlers are silent adds what its body had
    added when it stopped. *)
Lemma logs_within_try_except (ps : list io) (body : M F unit) hs :
  logs ps body ->
  (forall c h x, In (c, h) hs -> logs [] (h x)) ->
  logs_within ps (try_except body hs).
Proof.
  intros Hbody Hhs e w. unfold try_except. specialize (Hbody e w).
  destruct (body e w) as [[a|x] w1]; simpl in Hbody.
  - exists ps. split; [reflexivity | exact Hbody].
  - destruct Hbody as [qs [Hqs Hlog]].
    destruct (select_handler hs x) as [h|] eqn:Hsel.
    + destruct (select_handler_In _ _ _ Hsel) as [c [h0 [Hin ->]]].
      specialize (Hhs c h0 x Hin e w1). exists qs. split; [exact Hqs|].
      destruct (fst (h0 x e w1)).
      * now rewrite Hhs, app_nil_r.
      * destruct Hhs as [qs' [Hqs' Hlog']].
        apply prefix_nil_inv in Hqs'. subst qs'.
        now rewrite Hlog', app_nil_r.
    + exists qs. split; assumption.
Qed.

Lemma logs_within_bind_silent {A B} (p : list io) (m : M F A)
      (k : A -> M F B) :
  logs [] m -> (forall a, logs_within p (k a)) -> logs_within p (bind m k).
Proof.
  intros Hm Hk e w. unfold bind. specialize (Hm e w).
  destruct (m e w) as [[a|x] w1]; simpl in Hm.
  - destruct (Hk a e w1) as [qs [Hqs Hlog]]. exists qs. split; [exact Hqs|].
    now rewrite Hlog, Hm, app_nil_r.
  - destruct Hm as [qs [Hqs Hlog]]. apply prefix_nil_inv in Hqs. subst qs.
    exists []. split; [apply prefix_nil | exact Hlog].
Qed.

Lemma logs_handlers c h x :
  In (c, h) [(ImportError, on_import_error (F := F));
             (Exception, on_exception (F := F))] ->
  logs [] (h x).
Proof.
  intros [[= <- <-]|[[= <- <-]|[]]];
    unfold on_import_error, on_exception, say; repeat logs_silent_step.
Qed.

Lemma logs_within_script name :
  logs_within
    [Wrote "sorting_analysis.png";
     Confirmed
       "✓ Sorting algorithm comparison saved as 'sorting_analysis.png'";
     Wrote "search_analysis.png";
     Confirmed
       "✓ Search algorithm comparison saved as 'search_analysis.png'";
     Wrote "fibonacci_analysis.png";
     Confirmed
       "✓ Fibonacci recursion analysis saved as 'fibonacci_analysis.png'";
     Wrote "complexity_cheatsheet.png";
     Confirmed
       "✓ Complexity reference chart saved as 'complexity_cheatsheet.png'"]
    (script name).
Proof.
  unfold script.
  do 4 (apply logs_within_bind_silent; [apply logs_import | intros _]).
  destruct (String.eqb name "__main__").
  - apply logs_within_try_except; [apply logs_main | apply logs_handlers].
  - intros e w. exists []. split; [apply prefix_nil|].
    simpl. now rewrite app_nil_r.
Qed.

(** The saved paths are the writes of the write log. *)
Lemma saved_paths_write_log (tr : list (event F)) :
  saved_paths tr
  = omap (fun x => match x with Wrote p => Some p | Confirmed _ => None end)
         (write_log tr).
Proof.
  unfold saved_paths, write_log.
  induction tr as [|ev tr IH]; [reflexivity|].
  change (ev :: tr) with ([ev] ++ tr).
  rewrite !omap_app, IH. f_equal.
  change (match saved_path ev with Some y => [y] | None => [] end
          = omap (fun x => match x with
                           | Wrote p => Some p
                           | Confirmed _ => None
                           end)
                 (match io_of ev with Some y => [y] | None => [] end)).
  destruct ev as [t|fn args kwargs].
  - destruct t as [|[line|v spec|x] [|p t]]; try reflexivity.
    simpl. destruct (String.prefix _ line); reflexivity.
  - change (io_of (Call fn args kwargs))
      with (option_map Wrote (saved_path (Call fn args kwargs))).
    generalize (saved_path (Call fn args kwargs)). intros [path|];
      reflexivity.
Qed.

End WriteLogProgram.

(** X1: whatever the installation and the library do, the files the
    program has written and the confirmations it has printed when it stops
    form an initial segment of: first image, its confirmation, second
    image, its confirmation, and so on to the fourth.  So it writes at
    most four files, none but the four names, never one twice or out of
    order, and never confirms a file it has not written. *)
Theorem program_writes_an_initial_segment
  (F : Type) (ops : Float64Ops F) (e : Eff.env F) :
  Obs.write_log (snd (Script.run_script e))
    `prefix_of`
    [Obs.Wrote "sorting_analysis.png";
     Obs.Confirmed
       "✓ Sorting algorithm comparison saved as 'sorting_analysis.png'";
     Obs.Wrote "search_analysis.png";
     Obs.Confirmed
       "✓ Search algorithm comparison saved as 'search_analysis.png'";
     Obs.Wrote "fibonacci_analysis.png";
     Obs.Confirmed
       "✓ Fibonacci recursion analysis saved as 'fibonacci_analysis.png'";
     Obs.Wrote "complexity_cheatsheet.png";
     Obs.Confirmed
       "✓ Complexity reference chart saved as 'complexity_cheatsheet.png'"]
  /\ Obs.saved_paths (snd (Script.run_script e))
       `prefix_of`
       ["sorting_analysis.png"; "search_analysis.png";
        "fibonacci_analysis.png"; "complexity_cheatsheet.png"].
Proof.
  destruct (logs_within_script "__main__" e Script.initial_world)
    as [qs [Hqs Hlog]].
  assert (Htr : snd (Script.run_script e)
                = Eff.trace (snd (Script.script "__main__" e
                                    Script.initial_world))).
  { unfold Script.run_script.
    destruct (Script.script "__main__" e Script.initial_world)
      as [[a|x] w]; reflexivity. }
  rewrite Htr, saved_paths_write_log, Hlog. simpl app. split; [exact Hqs|].
  destruct Hqs as [k Hk].
  exists (omap (fun x => match x with
                         | Obs.Wrote p => Some p
                         | Obs.Confirmed _ => None
                         end) k).
  rewrite <- omap_app, <- Hk. reflexivity.
Qed.

(** X2: each of the four rendering routines, on any dataset reference, in
    any world and under any behaviour of the library, writes its own file
    and nothing else: exactly that one write when it returns, that write
    or none when it raises; and it prints no confirmation itself. *)
Theorem each_routine_writes_only_its_file
  (F : Type) (ops : Float64Ops F) (data : Eff.loc) :
  Obs.logs [Obs.Wrote "sorting_analysis.png"]
    (Script.plot_sorting_comparison data)
  /\ Obs.logs [Obs.Wrote "search_analysis.png"]
       (Script.plot_search_comparison data)
  /\ Obs.logs [Obs.Wrote "fibonacci_analysis.png"]
       (Script.plot_fibonacci_analysis (F := F))
  /\ Obs.logs [Obs.Wrote "complexity_cheatsheet.png"]
       (Script.create_complexity_cheatsheet (F := F)).
Proof.
  split; [apply logs_plot_sorting|].
  split; [apply logs_plot_search|].
  split; [apply logs_plot_fibonacci | apply logs_cheatsheet].
Qed.

(** ** A fault cuts the run short *)

Section CutShort.
Context {F : Type} {ops : Float64Ops F}.
Import Eff Script Obs.

Lemma cut_short_pure {A} (m : M F A) :
  (forall e w, m e w = m no_faults w) ->
  (forall e w, trace w `prefix_of` trace (snd (m e w))) ->
  cut_short m.
Proof.
  intros Hsame Hext e w. repeat split.
  - intros a w' Hrun. now rewrite <- (Hsame e w).
  - now rewrite (Hsame e w).
  - apply Hext.
Qed.

Lemma cut_short_ret {A} (a : A) : cut_short (F := F) (ret a).
Proof. apply cut_short_pure; reflexivity. Qed.

Lemma cut_short_lift {A} (r : result A) : cut_short (F := F) (lift r).
Proof. apply cut_short_pure; reflexivity. Qed.

Lemma cut_short_alloc d : cut_short (F := F) (alloc d).
Proof. apply cut_short_pure; reflexivity. Qed.

Lemma cut_short_print (t : text F) : cut_short (print t).
Proof.
  apply cut_short_pure; [reflexivity|].
  intros e w. simpl. now apply prefix_app_r.
Qed.

Lemma cut_short_getkey data key : cut_short (F := F) (getkey data key).
Proof.
  apply cut_short_pure; [reflexivity|].
  intros e w. unfold getkey.
  destruct (heap w !! data) as [d|]; [|reflexivity].
  destruct (d !! key); reflexivity.
Qed.

Lemma cut_short_call fn args kwargs :
  cut_short (F := F) (call fn args kwargs).
Proof.
  intros e w. unfold call. simpl call_fault.
  destruct (call_fault e (trace w) (Call fn args kwargs)); simpl.
  - repeat split; [discriminate | now apply prefix_app_r | reflexivity].
  - repeat split; [trivial | reflexivity | now apply prefix_app_r].
Qed.

Lemma cut_short_bind {A B} (m : M F A) (k : A -> M F B) :
  cut_short m -> (forall a, cut_short (k a)) -> cut_short (bind m k).
Proof.
  intros Hm Hk e w. unfold bind.
  destruct (Hm e w) as [Hok [Hpre Hext]].
  destruct (m e w) as [[a|x] w1] eqn:Em.
  - rewrite (Hok a w1 eq_refl).
    destruct (Hk a e w1) as [Hok' [Hpre' Hext']].
    repeat split; [exact Hok' | exact Hpre' |].
    etransitivity; [exact Hext | exact Hext'].
  - repeat split; [discriminate | | exact Hext].
    simpl in Hpre.
    destruct (m no_faults w) as [[a'|x'] w1']; [|exact Hpre].
    destruct (Hk a' no_faults w1') as [_ [_ Hext']].
    etransitivity; [exact Hpre | exact Hext'].
Qed.

Lemma cut_short_for_each {A} (l : list A) (body : A -> M F unit) :
  (forall a, cut_short (body a)) -> cut_short (for_each l body).
Proof.
  intros Hbody. induction l as [|a l IH]; simpl.
  - apply cut_short_ret.
  - apply cut_short_bind; [apply Hbody | intros _; exact IH].
Qed.

Lemma cut_short_comprehension {A B} (l : list A) (f : A -> M F B) :
  (forall a, cut_short (f a)) -> cut_short (comprehension l f).
Proof.
  intros Hf. induction l as [|a l IH]; simpl.
  - apply cut_short_ret.
  - apply cut_short_bind; [apply Hf | intros b].
    apply cut_short_bind; [exact IH | intros bs; apply cut_short_ret].
Qed.

End CutShort.

Ltac cut_short_step :=
  first
    [ apply cut_short_bind; [|intro]
    | apply cut_short_for_each; intro
    | apply cut_short_comprehension; intro
    | apply cut_short_call
    | apply cut_short_print
    | apply cut_short_getkey
    | apply cut_short_lift
    | apply cut_short_alloc
    | apply cut_short_ret
    | match goal with
      | |- Obs.cut_short (match ?p with pair _ _ => _ end) => destruct p
      end ].

Section CutShortScript.
Context {F : Type} {ops : Float64Ops F}.
Import Eff Script Obs.

Lemma cut_short_plot_sorting data : cut_short (plot_sorting_comparison data).
Proof.
  unfold plot_sorting_comparison, series, grid. repeat cut_short_step.
Qed.

Lemma cut_short_plot_search data : cut_short (plot_search_comparison data).
Proof.
  unfold plot_search_comparison, series, grid. repeat cut_short_step.
Qed.

Lemma cut_short_plot_fibonacci : cut_short plot_fibonacci_analysis.
Proof. unfold plot_fibonacci_analysis, grid. repeat cut_short_step. Qed.

Lemma cut_short_cheatsheet : cut_short create_complexity_cheatsheet.
Proof. unfold create_complexity_cheatsheet. repeat cut_short_step. Qed.

Lemma cut_short_main : cut_short main.
Proof.
  unfold main, say, create_sample_data.
  repeat first
    [ apply cut_short_plot_sorting | apply cut_short_plot_search
    | apply cut_short_plot_fibonacci | apply cut_short_cheatsheet
    | cut_short_step ].
Qed.

End CutShortScript.

(** X3: a fault of the library can only cut [main], or any of the four
    routines, short.  Started from the same world, what the run under any
    environment has drawn and printed when it stops is an initial segment
    of what the fault-free run draws and prints; a run that returns is the
    fault-free run; and no run removes an event. *)
Theorem fault_cuts_the_run_short (F : Type) (ops : Float64Ops F) :
  Obs.cut_short (Script.main (F := F))
  /\ (forall data : Eff.loc,
        Obs.cut_short (Script.plot_sorting_comparison (F := F) data)
        /\ Obs.cut_short (Script.plot_search_comparison (F := F) data))
  /\ Obs.cut_short (Script.plot_fibonacci_analysis (F := F))
  /\ Obs.cut_short (Script.create_complexity_cheatsheet (F := F)).
Proof.
  split; [apply cut_short_main|].
  split; [intros data; split;
            [apply cut_short_plot_sorting | apply cut_short_plot_search]|].
  split; [apply cut_short_plot_fibonacci | apply cut_short_cheatsheet].
Qed.

(** ** Imports and the guard *)

(** X4: when any of the four imports of lines 12-15 fails, pandas
    included although no function uses it, the program ends with the
    exception of the first import that fails, in the order of the source,
    uncaught by the guard of lines 252-263, and before it has printed or
    drawn anything. *)
Theorem failed_import_ends_the_program
  (F : Type) (ops : Float64Ops F) (e : Eff.env F) (name : string) :
  In name ["matplotlib.pyplot"; "numpy"; "pandas"; "matplotlib.patches"] ->
  Eff.import_fault e name <> None ->
  exists before failing after x,
    ["matplotlib.pyplot"; "numpy"; "pandas"; "matplotlib.patches"]
    = before ++ failing :: after
    /\ Forall (fun earlier => Eff.import_fault e earlier = None) before
    /\ Eff.import_fault e failing = Some x
    /\ Script.run_script e = (Script.Uncaught x, []).
Proof.
  intros Hin Hfault.
  destruct (Eff.import_fault e "matplotlib.pyplot") as [x|] eqn:E1.
  { exists [], "matplotlib.pyplot", ["numpy"; "pandas"; "matplotlib.patches"], x.
    repeat split; [constructor | exact E1 |].
    unfold Script.run_script, Script.script, Eff.bind, Eff.import_module.
    now rewrite E1. }
  destruct (Eff.import_fault e "numpy") as [x|] eqn:E2.
  { exists ["matplotlib.pyplot"], "numpy", ["pandas"; "matplotlib.patches"], x.
    repeat split; [repeat constructor; assumption | exact E2 |].
    unfold Script.run_script, Script.script, Eff.bind, Eff.import_module.
    now rewrite E1, E2. }
  destruct (Eff.import_fault e "pandas") as [x|] eqn:E3.
  { exists ["matplotlib.pyplot"; "numpy"], "pandas", ["matplotlib.patches"], x.
    repeat split; [repeat constructor; assumption | exact E3 |].
    unfold Script.run_script, Script.script, Eff.bind, Eff.import_module.
    now rewrite E1, E2, E3. }
  destruct (Eff.import_fault e "matplotlib.patches") as [x|] eqn:E4.
  { exists ["matplotlib.pyplot"; "numpy"; "pandas"], "matplotlib.patches", [], x.
    repeat split; [repeat constructor; assumption | exact E4 |].
    unfold Script.run_script, Script.script, Eff.bind, Eff.import_module.
    now rewrite E1, E2, E3, E4. }
  exfalso. simpl in Hin.
  destruct Hin as [<-|[<-|[<-|[<-|[]]]]]; contradiction.
Qed.

Lemma failed_import_witness :
  exists before failing after x,
    ["matplotlib.pyplot"; "numpy"; "pandas"; "matplotlib.patches"]
    = before ++ failing :: after
    /\ Forall (fun earlier =>
                 Eff.import_fault
                   (Obs.without_pandas (F := float)) earlier = None) before
    /\ Eff.import_fault (Obs.without_pandas (F := float)) failing = Some x
    /\ Script.run_script (ops := Binary64.arithmetic) Obs.without_pandas
       = (Script.Uncaught x, []).
Proof.
  apply (failed_import_ends_the_program float Binary64.arithmetic
           Obs.without_pandas "pandas").
  - simpl. tauto.
  - simpl. discriminate.
Defined.

(** X5: once the four imports have succeeded, and as long as the library
    raises nothing outside [Exception], the program ends normally
    whatever fails in [main].  When [main] returned, nothing more is
    printed; when it raised, the trace is what [main] had done followed by
    exactly two lines: the installation hint for an [ImportError], the
    generic message for anything else. *)
Theorem guard_reports_and_ends_normally
  (F : Type) (ops : Float64Ops F) (e : Eff.env F) :
  Obs.imports_succeed e ->
  Obs.well_behaved e ->
  fst (Script.run_script e) = Script.Exit0
  /\ match Script.main e Script.initial_world with
     | (Ok _, w1) => snd (Script.run_script e) = Eff.trace w1
     | (Raise x, w1) =>
         snd (Script.run_script e)
         = Eff.trace w1 ++
           (if isinstance x ImportError
            then [Eff.Print [Eff.Lit "Missing required package: ";
                             Eff.FmtExn x];
                  Eff.Print [Eff.Lit
                    "Install with: pip install matplotlib pandas numpy"]]
            else [Eff.Print [Eff.Lit "Error: "; Eff.FmtExn x];
                  Eff.Print [Eff.Lit
                    "Make sure you have the required data and packages installed."]])
     end.
Proof.
  intros Himp He.
  destruct (guarded_main_ends_normally e Script.initial_world He)
    as [Hok Htrace].
  assert (Hrun : Script.script "__main__" e Script.initial_world
                 = Script.guarded_main e Script.initial_world).
  { unfold Script.script. unfold Obs.imports_succeed in Himp.
    repeat match goal with
           | H : Forall _ (_ :: _) |- _ => inversion H; subst; clear H
           end.
    rewrite !run_bind_import by assumption.
    now rewrite String.eqb_refl. }
  unfold Script.run_script. rewrite Hrun.
  destruct (Script.guarded_main e Script.initial_world) as [[[]|y] w2];
    simpl in Hok; [|discriminate].
  split; [reflexivity|]. simpl snd in *.
  destruct (Script.main e Script.initial_world) as [[a|x] w1].
  - now subst w2.
  - exact Htrace.
Qed.

Lemma guard_reports_witness :
  fst (Script.run_script (ops := Binary64.arithmetic) Obs.broken_backend)
  = Script.Exit0.
Proof.
  apply (guard_reports_and_ends_normally float Binary64.arithmetic
           Obs.broken_backend).
  - unfold Obs.imports_succeed. repeat constructor.
  - intros tr ev x. simpl.
    destruct ev as [t|fn args kwargs]; [discriminate|].
    destruct (String.eqb fn "plt.figure"); [|discriminate].
    intros [= <-]. reflexivity.
Defined.

(** ** Array arithmetic that cannot fail *)

Section ArithmeticTotal.
Context {F : Type} {ops : Float64Ops F}.

Lemma floats_IntArray (l : list Z) :
  Np.floats (ops := ops) (Np.IntArray l) = map of_int l.
Proof. unfold Np.floats. simpl. now rewrite map_map. Qed.

Lemma len_FloatArray (l : list F) : Np.len (Np.FloatArray l) = length l.
Proof. unfold Np.len. simpl. apply length_map. Qed.

Lemma len_IntArray (l : list Z) : Np.len (F := F) (Np.IntArray l) = length l.
Proof. unfold Np.len. simpl. apply length_map. Qed.

Lemma len_floats (a : Np.ndarray F) : length (Np.floats a) = Np.len a.
Proof. unfold Np.floats, Np.len. apply length_map. Qed.

(** [a / s] with a scalar: a float array of the quotients, whatever the
    dtypes. *)
Lemma arr_sc_true_divide (a : Np.ndarray F) (s : Np.scalar F) :
  Np.arr_sc Np.TrueDiv a s
  = Ok (Np.FloatArray (map (fun x => fdiv x (Np.to_float s)) (Np.floats a))).
Proof.
  unfold Np.arr_sc, Np.floats.
  rewrite (mapM_total _
             (fun x => Np.SFloat (fdiv (Np.to_float x) (Np.to_float s))))
    by reflexivity.
  simpl. do 2 f_equal. now rewrite !map_map.
Qed.

(** A float array combined with a scalar stays a float array, for every
    operator. *)
Lemma arr_sc_float (op : Np.binop) (l : list F) (s : Np.scalar F) :
  Np.arr_sc op (Np.FloatArray l) s
  = Ok (Np.FloatArray
          (map (fun x => Np.float_op op x (Np.to_float s)) l)).
Proof.
  unfold Np.arr_sc. simpl Np.elems.
  rewrite (mapM_map_total _ _
             (fun x => Np.SFloat (Np.float_op op x (Np.to_float s))))
    by (intros x; destruct op, s; reflexivity).
  replace (Np.int_result op (Np.is_int_array (Np.FloatArray l))
             (Np.is_int_scalar s)) with false by (destruct op; reflexivity).
  simpl. do 2 f_equal. now rewrite map_map.
Qed.

(** An integer array combined with a float scalar becomes a float
    array. *)
Lemma arr_sc_int_float (op : Np.binop) (l : list Z) (y : F) :
  Np.arr_sc op (Np.IntArray l) (Np.SFloat y)
  = Ok (Np.FloatArray (map (fun z => Np.float_op op (of_int z) y) l)).
Proof.
  unfold Np.arr_sc. simpl Np.elems.
  rewrite (mapM_map_total _ _
             (fun z => Np.SFloat (Np.float_op op (of_int z) y)))
    by (intros z; destruct op; reflexivity).
  replace (Np.int_result op (Np.is_int_array (F := F) (Np.IntArray l))
             (Np.is_int_scalar (Np.SFloat y))) with false
    by (destruct op; reflexivity).
  simpl. do 2 f_equal. now rewrite map_map.
Qed.

Lemma mapM_zip_floats (op : Np.binop) (l1 l2 : list F) :
  Np.mapM (fun p => Np.scalar_op op (fst p) (snd p))
          (zip (map Np.SFloat l1) (map Np.SFloat l2))
  = Ok (map Np.SFloat (zip_with (Np.float_op op) l1 l2)).
Proof.
  revert l2. induction l1 as [|x l1 IH]; intros [|y l2]; try reflexivity.
  simpl. rewrite IH. destruct op; reflexivity.
Qed.

(** Two float arrays of one length combine elementwise, for every
    operator. *)
Lemma arr_arr_float (op : Np.binop) (l1 l2 : list F) :
  length l1 = length l2 ->
  Np.arr_arr op (Np.FloatArray l1) (Np.FloatArray l2)
  = Ok (Np.FloatArray (zip_with (Np.float_op op) l1 l2)).
Proof.
  intros Hlen. unfold Np.arr_arr, Np.broadcast. simpl Np.elems.
  rewrite !length_map, Hlen, Nat.eqb_refl. simpl rbind.
  rewrite mapM_zip_floats. simpl rbind.
  replace (Np.int_result op _ _) with false by (destruct op; reflexivity).
  simpl. do 2 f_equal. rewrite map_map. apply map_id.
Qed.


Lemma getitem_first (a : Np.ndarray F) :
  (0 < Np.len a)%nat -> exists s, Np.getitem a 0 = Ok s.
Proof.
  intros Hlen. unfold Np.getitem, norm_index. simpl.
  destruct (Z.ltb_spec 0 (Z.of_nat (Np.len a))) as [_|Hge]; [|lia].
  simpl. unfold Np.len in Hlen.
  destruct (Np.elems a) as [|s l]; [simpl in Hlen; lia|]. now exists s.
Qed.

Lemma getitem_last (a : Np.ndarray F) :
  (0 < Np.len a)%nat -> exists s, Np.getitem a (-1) = Ok s.
Proof.
  intros Hlen. unfold Np.getitem, norm_index.
  change (-1 <? 0)%Z with true. cbv iota.
  destruct (Z.leb_spec 0 (-1 + Z.of_nat (Np.len a))) as [_|Hlt]; [|lia].
  destruct (Z.ltb_spec (-1 + Z.of_nat (Np.len a)) (Z.of_nat (Np.len a)))
    as [_|Hge]; [|lia].
  simpl andb. cbv iota.
  destruct (nth_error (Np.elems a) (Z.to_nat (-1 + Z.of_nat (Np.len a))))
    as [s|] eqn:Enth; [now exists s|].
  apply nth_error_None in Enth. unfold Np.len in *. lia.
Qed.

Lemma getitem_in_range (a : Np.ndarray F) (i : nat) :
  (i < Np.len a)%nat -> exists s, Np.getitem a (Z.of_nat i) = Ok s.
Proof.
  intros Hlen. unfold Np.getitem, norm_index.
  destruct (Z.ltb_spec (Z.of_nat i) 0) as [Hneg|_]; [lia|].
  destruct (Z.leb_spec 0 (Z.of_nat i)) as [_|Hlt]; [|lia].
  destruct (Z.ltb_spec (Z.of_nat i) (Z.of_nat (Np.len a))) as [_|Hge]; [|lia].
  simpl andb. cbv iota. rewrite Nat2Z.id.
  destruct (nth_error (Np.elems a) i) as [s|] eqn:Enth; [now exists s|].
  apply nth_error_None in Enth. unfold Np.len in *. lia.
Qed.

(** An empty array has no first element. *)
Lemma getitem_empty (a : Np.ndarray F) (i : Z) :
  Np.len a = 0%nat ->
  Np.getitem a i = Raise (Exn IndexError "index out of bounds").
Proof.
  intros Hlen. unfold Np.getitem. unfold Np.len in Hlen.
  destruct (norm_index (Np.len a) i) as [k|]; [|reflexivity].
  destruct (Np.elems a) as [|s l]; [|discriminate].
  destruct k; reflexivity.
Qed.

End ArithmeticTotal.

(** ** Fault-free runs on any dataset *)

Section Run.
Context {F : Type} {ops : Float64Ops F}.
Import Eff Script Obs.

Lemma extend_nil (w : world F) : extend w [] = w.
Proof. destruct w. unfold extend. simpl. now rewrite app_nil_r. Qed.

Lemma run_call {B} fn args kwargs (k : unit -> M F B) w evs :
  bind (call fn args kwargs) k no_faults (extend w evs)
  = k tt no_faults (extend w (evs ++ [Call fn args kwargs])).
Proof.
  unfold bind, call, emit, extend. simpl. now rewrite app_assoc.
Qed.

Lemma run_call_last fn args kwargs (w : world F) evs :
  call fn args kwargs no_faults (extend w evs)
  = (Ok tt, extend w (evs ++ [Call fn args kwargs])).
Proof. unfold call, emit, extend. simpl. now rewrite app_assoc. Qed.

Lemma run_getkey {B} data key d a (k : Np.ndarray F -> M F B) e w evs :
  heap w !! data = Some d -> d !! key = Some a ->
  bind (getkey data key) k e (extend w evs) = k a e (extend w evs).
Proof.
  intros Hd Ha. unfold bind, getkey. simpl heap. now rewrite Hd, Ha.
Qed.

Lemma run_getkey_missing {B} data key d (k : Np.ndarray F -> M F B) e w evs :
  heap w !! data = Some d -> d !! key = None ->
  bind (getkey data key) k e (extend w evs)
  = (Raise (Exn KeyError key), extend w evs).
Proof.
  intros Hd Ha. unfold bind, getkey. simpl heap. now rewrite Hd, Ha.
Qed.

Lemma run_lift {A B} (r : result A) a (k : A -> M F B) e w :
  r = Ok a -> bind (lift r) k e w = k a e w.
Proof. now intros ->. Qed.

Lemma run_lift_raise {A B} (r : result A) x (k : A -> M F B) e w :
  r = Raise x -> bind (lift r) k e w = (Raise x, w).
Proof. now intros ->. Qed.

Lemma run_series {B} data fn key fmt label style sizes d y
      (k : unit -> M F B) w evs :
  heap w !! data = Some d -> d !! key = Some y ->
  bind (series data fn key fmt label style sizes) k no_faults (extend w evs)
  = k tt no_faults
      (extend w (evs ++ [Call fn [AArr sizes; AArr y; AStr fmt]
                              (("label", AStr label) :: style)])).
Proof.
  intros Hd Hy. unfold series, bind at 1.
  rewrite (run_getkey data key d y) by assumption.
  unfold call, emit, extend. simpl. now rewrite app_assoc.
Qed.

Lemma run_series_missing {B} data fn key fmt label style sizes d
      (k : unit -> M F B) w evs :
  heap w !! data = Some d -> d !! key = None ->
  bind (series data fn key fmt label style sizes) k no_faults (extend w evs)
  = (Raise (Exn KeyError key), extend w evs).
Proof.
  intros Hd Hy. unfold series, bind at 1.
  now rewrite (run_getkey_missing data key d) by assumption.
Qed.

(** A loop of calls adds one event for each element. *)
Lemma run_for_each_calls {A B} (l : list A) fn
      (args : A -> list (arg F)) (kwargs : A -> list (string * arg F))
      (k : unit -> M F B) w evs :
  bind (for_each l (fun a => call fn (args a) (kwargs a))) k no_faults
       (extend w evs)
  = k tt no_faults
      (extend w (evs ++ map (fun a => Call fn (args a) (kwargs a)) l)).
Proof.
  revert evs. induction l as [|a l IH]; intros evs.
  - simpl. unfold bind at 1. simpl. now rewrite app_nil_r.
  - simpl for_each. unfold bind at 1. rewrite run_call.
    specialize (IH (evs ++ [Call fn (args a) (kwargs a)])).
    unfold bind at 1 in IH. rewrite <- app_assoc in IH. exact IH.
Qed.

Local Abbreviation tick_label sizes :=
  (fun i : nat =>
     bind (F := F) (lift (Np.getitem sizes (Z.of_nat i)))
       (fun a : Np.scalar F =>
          bind (lift (Np.getitem sizes (Z.of_nat i + 1)))
            (fun b : Np.scalar F =>
               ret (AText [Fmt a ""; Lit "->"; Fmt b ""])))).

Lemma run_tick_labels_from (sizes : Np.ndarray F) (n start : nat) :
  (start + n < Np.len sizes)%nat \/ n = 0%nat ->
  exists labels : list (arg F),
    length labels = n
    /\ forall e w,
         comprehension (seq start n) (tick_label sizes) e w = (Ok labels, w).
Proof.
  revert start. induction n as [|n IH]; intros start Hrange.
  - exists []. split; reflexivity.
  - destruct Hrange as [Hrange|]; [|discriminate].
    destruct (IH (S start)) as [labels [Hlen Hrun]]; [left; lia|].
    destruct (getitem_in_range sizes start) as [a Ha]; [lia|].
    destruct (getitem_in_range sizes (S start)) as [b Hb]; [lia|].
    replace (Z.of_nat (S start)) with (Z.of_nat start + 1)%Z in Hb by lia.
    exists (AText [Fmt a ""; Lit "->"; Fmt b ""] :: labels).
    split; [simpl; now rewrite Hlen|].
    intros e w. simpl comprehension. unfold bind at 1.
    rewrite (run_lift _ a) by exact Ha.
    rewrite (run_lift _ b) by exact Hb.
    simpl. unfold bind at 1. now rewrite Hrun.
Qed.

(** The tick labels: one for each pair of consecutive sizes, and the
    lookups stay in range. *)
Lemma run_tick_labels (sizes : Np.ndarray F) :
  exists labels : list (arg F),
    length labels = (Np.len sizes - 1)%nat
    /\ forall B (k : list (arg F) -> M F B) e w,
         bind (comprehension (seq 0 (Np.len sizes - 1)) (tick_label sizes))
              k e w
         = k labels e w.
Proof.
  destruct (run_tick_labels_from sizes (Np.len sizes - 1)%nat 0%nat)
    as [labels [Hlen Hrun]]; [lia|].
  exists labels. split; [exact Hlen|].
  intros B k e w. unfold bind at 1. now rewrite Hrun.
Qed.

End Run.

(** Evaluates the left-hand side of an equation, leaving [length] folded. *)
Ltac eval_lhs :=
  match goal with
  | |- ?L = _ => let v := eval cbv -[length] in L in change L with v
  end.

(** Runs the calls, series and lookups at the head of a computation. *)
Ltac run_quiet :=
  repeat (first [ rewrite run_call
                | erewrite run_series by eassumption
                | erewrite run_getkey by eassumption ];
          cbv beta).

Section RunSorting.
Context {F : Type} {ops : Float64Ops F}.
Import Eff Script Obs.

Lemma run_plot_sorting_from data d (w : world F)
      sizes bubble insertion merge quick evs0 :
  heap w !! data = Some d ->
  d !! "sizes" = Some sizes -> d !! "bubble" = Some bubble ->
  d !! "insertion" = Some insertion -> d !! "merge" = Some merge ->
  d !! "quick" = Some quick ->
  (0 < Np.len sizes)%nat ->
  exists evs,
    plot_sorting_comparison data no_faults (extend w evs0)
    = (Ok tt, extend w (evs0 ++ evs))
    /\ bar_heights evs
       = [Np.FloatArray (quotients (Np.floats bubble));
          Np.FloatArray (quotients (Np.floats merge))]
    /\ ticks evs
       = [(Np.arange (F := F) (Np.len bubble - 1), (Np.len sizes - 1)%nat)]
    /\ write_log evs = [Wrote "sorting_analysis.png"].
Proof.
  intros Hd Hsizes Hbubble Hinsertion Hmerge Hquick Hlen.
  destruct (getitem_first sizes Hlen) as [first Hfirst].
  destruct (getitem_last sizes Hlen) as [last Hlast].
  destruct (run_tick_labels sizes) as [labels [Hlabels Hticks]].
  remember (Np.linspace first last 100) as x_theory eqn:Ex.
  pose proof (arr_sc_true_divide x_theory (num (PyInt 1000))) as Hq.
  remember (map (fun x => fdiv x (Np.to_float (num (PyInt 1000))))
                (Np.floats x_theory)) as q eqn:Eq.
  pose proof (arr_sc_float Np.Pow q (num (PyInt 2))) as Hq2.
  remember (map (fun x => Np.float_op Np.Pow x (Np.to_float (num (PyInt 2))))
                q) as q2 eqn:Eq2.
  pose proof (arr_sc_float Np.Mul q2 (num (PyInt 10))) as Hquad.
  remember (map (fun x => Np.float_op Np.Mul x
                            (Np.to_float (num (PyInt 10)))) q2)
    as quad eqn:Equad.
  assert (Hkl : Np.arr_arr Np.Mul (Np.FloatArray q)
                  (Np.log2 (Np.FloatArray q))
                = Ok (Np.FloatArray
                        (zip_with (Np.float_op Np.Mul) q (map flog2 q)))).
  { unfold Np.log2. rewrite floats_FloatArray. apply arr_arr_float.
    now rewrite length_map. }
  remember (zip_with (Np.float_op Np.Mul) q (map flog2 q)) as kl eqn:Ekl.
  pose proof (arr_sc_float Np.Mul kl (num (PyInt 2))) as Hlin.
  remember (map (fun x => Np.float_op Np.Mul x (Np.to_float (num (PyInt 2))))
                kl) as lin eqn:Elin.
  pose proof (growth_quotients bubble) as Hbg.
  remember (quotients (Np.floats bubble)) as bg eqn:Ebg.
  pose proof (growth_quotients merge) as Hmg.
  remember (quotients (Np.floats merge)) as mg eqn:Emg.
  assert (Hleft : exists left,
            Np.arr_sc Np.Sub (Np.arange (Np.len (Np.FloatArray bg)))
              (num (PyFloat 2 (-1))) = Ok (Np.FloatArray left)).
  { eexists. apply arr_sc_int_float. }
  destruct Hleft as [left Hleft].
  assert (Hright : exists right,
            Np.arr_sc Np.Add (Np.arange (Np.len (Np.FloatArray bg)))
              (num (PyFloat 2 (-1))) = Ok (Np.FloatArray right)).
  { eexists. apply arr_sc_int_float. }
  destruct Hright as [right Hright].
  remember (Np.arange (F := F) (Np.len (Np.FloatArray bg))) as x_pos
    eqn:Expos.
  eexists. split.
  - unfold plot_sorting_comparison, grid.
    run_quiet.
    rewrite (run_lift _ first) by exact Hfirst. cbv beta.
    rewrite (run_lift _ last) by exact Hlast. cbv beta zeta.
    rewrite <- Ex.
    rewrite (run_lift _ _ _ _ _ Hq). cbv beta.
    rewrite (run_lift _ _ _ _ _ Hq2). cbv beta.
    rewrite (run_lift _ _ _ _ _ Hquad). cbv beta.
    run_quiet.
    rewrite (run_lift _ _ _ _ _ Hq). cbv beta.
    rewrite (run_lift _ _ _ _ _ Hq). cbv beta.
    rewrite (run_lift _ _ _ _ _ Hkl). cbv beta.
    rewrite (run_lift _ _ _ _ _ Hlin). cbv beta.
    run_quiet.
    rewrite (run_lift _ _ _ _ _ Hbg). cbv beta.
    run_quiet.
    rewrite (run_lift _ _ _ _ _ Hmg). cbv beta zeta.
    rewrite <- Expos.
    rewrite (run_lift _ _ _ _ _ Hleft). cbv beta.
    run_quiet.
    rewrite (run_lift _ _ _ _ _ Hright). cbv beta.
    run_quiet.
    rewrite Hticks.
    run_quiet.
    rewrite run_call_last.
    rewrite <- !app_assoc. reflexivity.
  - split; [|split].
    + eval_lhs. subst bg mg. reflexivity.
    + eval_lhs. rewrite Hlabels. subst x_pos.
      rewrite len_FloatArray. subst bg.
      rewrite length_quotients, len_floats, !Nat.sub_1_r. reflexivity.
    + eval_lhs. reflexivity.
Qed.

End RunSorting.

Section Projections.
Context {F : Type} {ops : Float64Ops F}.
Import Eff Script Obs.

Lemma omap_singleton {A B} (f : A -> option B) (x : A) :
  omap f [x] = match f x with Some y => [y] | None => [] end.
Proof. reflexivity. Qed.

Lemma omap_map_none {A B C} (f : B -> option C) (g : A -> B) (l : list A) :
  (forall a, f (g a) = None) -> omap f (map g l) = [].
Proof.
  intros Hfg. induction l as [|a l IH]; [reflexivity|].
  change (map g (a :: l)) with ([g a] ++ map g l).
  now rewrite omap_app, omap_singleton, Hfg, IH.
Qed.

Lemma omap_map_some {A B C} (f : B -> option C) (g : A -> B) (h : A -> C)
      (l : list A) :
  (forall a, f (g a) = Some (h a)) -> omap f (map g l) = map h l.
Proof.
  intros Hfg. induction l as [|a l IH]; [reflexivity|].
  change (map g (a :: l)) with ([g a] ++ map g l).
  now rewrite omap_app, omap_singleton, Hfg, IH.
Qed.

Lemma first_missing_cons (d : gmap string (Np.ndarray F)) key keys :
  first_missing d (key :: keys)
  = match d !! key with
    | Some _ => first_missing d keys
    | None => Some key
    end.
Proof.
  unfold first_missing. simpl. destruct (d !! key) as [a|].
  - rewrite bool_decide_true by eauto. reflexivity.
  - rewrite bool_decide_false by (intros [a Ha]; discriminate). reflexivity.
Qed.

End Projections.

(** Evaluates a projection of a list of events given one by one. *)
Ltac eval_projection :=
  rewrite !omap_singleton;
  match goal with
  | |- ?L = _ => let v := eval cbv -[length app] in L in change L with v
  end;
  rewrite ?app_nil_l, ?app_nil_r.

(** Runs a computation up to the lookup of a key the dataset lacks. *)
Ltac run_to_missing_key :=
  run_quiet;
  first [ erewrite run_series_missing by eassumption
        | erewrite run_getkey_missing by eassumption ];
  rewrite <- ?app_assoc; reflexivity.

Section RunSearch.
Context {F : Type} {ops : Float64Ops F}.
Import Eff Script Obs.

Lemma run_plot_search_from data d (w : world F) sizes linear binary evs0 :
  heap w !! data = Some d ->
  d !! "search_sizes" = Some sizes -> d !! "linear" = Some linear ->
  d !! "binary" = Some binary ->
  Np.len linear = Np.len binary ->
  exists evs,
    plot_search_comparison data no_faults (extend w evs0)
    = (Ok tt, extend w (evs0 ++ evs))
    /\ drawn "plt.plot" "go-" evs
       = [(sizes,
           Np.FloatArray (zip_with fdiv (Np.floats linear) (Np.floats binary)))]
    /\ annotated evs
       = zip (Np.elems sizes)
             (map Np.SFloat
                (zip_with fdiv (Np.floats linear) (Np.floats binary)))
    /\ write_log evs = [Wrote "search_analysis.png"].
Proof.
  intros Hd Hsizes Hlinear Hbinary Hlen.
  pose proof (true_divide_elementwise linear binary Hlen) as Hratio.
  fold (efficiency_ratio linear binary) in Hratio.
  remember (zip_with fdiv (Np.floats linear) (Np.floats binary)) as ratio
    eqn:Eratio.
  remember (zip (Np.elems sizes) (map Np.SFloat ratio)) as points eqn:Epoints.
  eexists. split.
  - unfold plot_search_comparison, grid.
    run_quiet.
    rewrite (run_lift _ _ _ _ _ Hratio). cbv beta.
    run_quiet.
    simpl Np.elems. rewrite <- Epoints. cbv zeta.
    rewrite run_for_each_calls.
    run_quiet.
    rewrite run_call_last.
    rewrite <- !app_assoc. reflexivity.
  - split; [|split].
    + unfold drawn. rewrite !omap_app.
      rewrite omap_map_none by reflexivity.
      eval_projection. reflexivity.
    + unfold annotated. rewrite !omap_app.
      rewrite (omap_map_some _ _ (fun p => (fst p, snd p))) by reflexivity.
      replace (map (fun p : Np.scalar F * Np.scalar F => (fst p, snd p)) points)
        with points
        by (rewrite <- (map_id points) at 1; apply map_ext; now intros []).
      eval_projection. reflexivity.
    + unfold write_log. rewrite !omap_app.
      rewrite omap_map_none by reflexivity.
      eval_projection. reflexivity.
Qed.

End RunSearch.

Section RunRaising.
Context {F : Type} {ops : Float64Ops F}.
Import Eff Script Obs.

Lemma run_plot_sorting_missing data d (w : world F) key evs0 :
  heap w !! data = Some d ->
  first_missing d ["sizes"; "bubble"; "insertion"; "merge"; "quick"]
  = Some key ->
  exists evs,
    plot_sorting_comparison data no_faults (extend w evs0)
    = (Raise (Exn KeyError key), extend w (evs0 ++ evs))
    /\ write_log evs = [].
Proof.
  intros Hd Hmiss. rewrite !first_missing_cons in Hmiss.
  unfold plot_sorting_comparison, grid.
  destruct (d !! "sizes") as [sizes|] eqn:Hsizes;
    [|injection Hmiss as <-; eexists; split;
      [run_to_missing_key | reflexivity]].
  destruct (d !! "bubble") as [bubble|] eqn:Hbubble;
    [|injection Hmiss as <-; eexists; split;
      [run_to_missing_key | reflexivity]].
  destruct (d !! "insertion") as [insertion|] eqn:Hinsertion;
    [|injection Hmiss as <-; eexists; split;
      [run_to_missing_key | reflexivity]].
  destruct (d !! "merge") as [merge|] eqn:Hmerge;
    [|injection Hmiss as <-; eexists; split;
      [run_to_missing_key | reflexivity]].
  destruct (d !! "quick") as [quick|] eqn:Hquick;
    [|injection Hmiss as <-; eexists; split;
      [run_to_missing_key | reflexivity]].
  discriminate.
Qed.

Lemma run_plot_sorting_empty data d (w : world F)
      sizes bubble insertion merge quick evs0 :
  heap w !! data = Some d ->
  d !! "sizes" = Some sizes -> d !! "bubble" = Some bubble ->
  d !! "insertion" = Some insertion -> d !! "merge" = Some merge ->
  d !! "quick" = Some quick ->
  Np.len sizes = 0%nat ->
  exists evs,
    plot_sorting_comparison data no_faults (extend w evs0)
    = (Raise (Exn IndexError "index out of bounds"), extend w (evs0 ++ evs))
    /\ write_log evs = []
    /\ labels "plt.loglog" evs
       = ["Bubble Sort"; "Insertion Sort"; "Merge Sort"; "Quick Sort"]%string.
Proof.
  intros Hd Hsizes Hbubble Hinsertion Hmerge Hquick Hlen.
  eexists. split.
  - unfold plot_sorting_comparison, grid. run_quiet.
    rewrite (run_lift_raise _ _ _ _ _ (getitem_empty sizes 0 Hlen)).
    rewrite <- !app_assoc. reflexivity.
  - split; reflexivity.
Qed.

Lemma run_plot_search_missing data d (w : world F) key evs0 :
  heap w !! data = Some d ->
  first_missing d ["search_sizes"; "linear"; "binary"] = Some key ->
  exists evs,
    plot_search_comparison data no_faults (extend w evs0)
    = (Raise (Exn KeyError key), extend w (evs0 ++ evs))
    /\ write_log evs = [].
Proof.
  intros Hd Hmiss. rewrite !first_missing_cons in Hmiss.
  unfold plot_search_comparison, grid.
  destruct (d !! "search_sizes") as [sizes|] eqn:Hsizes;
    [|injection Hmiss as <-; eexists; split;
      [run_to_missing_key | reflexivity]].
  destruct (d !! "linear") as [linear|] eqn:Hlinear;
    [|injection Hmiss as <-; eexists; split;
      [run_to_missing_key | reflexivity]].
  destruct (d !! "binary") as [binary|] eqn:Hbinary;
    [|injection Hmiss as <-; eexists; split;
      [run_to_missing_key | reflexivity]].
  discriminate.
Qed.


(** A computation that raises in the fault-free run returns under no
    behaviour of the library. *)
Lemma never_returns {A} (m : M F A) (w : world F) x w' :
  faultless m -> m no_faults w = (Raise x, w') ->
  forall e a, fst (m e w) <> Ok a.
Proof.
  intros Hm Hraise e a Hok.
  destruct (m e w) as [r w1] eqn:Erun. simpl in Hok. subst r.
  apply Hm in Erun. congruence.
Qed.

End RunRaising.

(** ** Where the exception of a run comes from *)

Section SameOrFault.
Context {F : Type} {ops : Float64Ops F}.
Import Eff Script Obs.







End SameOrFault.

(** ** The two dataset routines on data other than the sample *)

Section OwnData.
#[local] Existing Instance Binary64.arithmetic.

(** X6: the sorting routine on measurements of one's own.  For a dataset
    with the five keys and as many bubble, insertion, merge and quick
    timings as sizes, every run that returns, whatever the library did on
    the way, has done what the fault-free run does: there was at least one
    size; the two bar series are the consecutive quotients of the bubble
    and of the merge timings, one bar fewer than there are sizes; the
    ticks are as many as their labels; and the one file is written. *)
Theorem sorting_routine_on_even_dataset
  (F : Type) (ops : Float64Ops F) (data : Eff.loc)
  (d : gmap string (Np.ndarray F)) (w : Eff.world F)
  (sizes bubble insertion merge quick : Np.ndarray F)
  (e : Eff.env F) (w' : Eff.world F) :
  Eff.heap w !! data = Some d ->
  d !! "sizes" = Some sizes -> d !! "bubble" = Some bubble ->
  d !! "insertion" = Some insertion -> d !! "merge" = Some merge ->
  d !! "quick" = Some quick ->
  Np.len bubble = Np.len sizes -> Np.len insertion = Np.len sizes ->
  Np.len merge = Np.len sizes -> Np.len quick = Np.len sizes ->
  Script.plot_sorting_comparison data e w = (Ok tt, w') ->
  exists evs,
    w' = Obs.extend w evs
    /\ Script.plot_sorting_comparison data Obs.no_faults w = (Ok tt, w')
    /\ (0 < Np.len sizes)%nat
    /\ Obs.bar_heights evs
       = [Np.FloatArray (Obs.quotients (Np.floats bubble));
          Np.FloatArray (Obs.quotients (Np.floats merge))]
    /\ length (Obs.quotients (Np.floats bubble)) = (Np.len sizes - 1)%nat
    /\ length (Obs.quotients (Np.floats merge)) = (Np.len sizes - 1)%nat
    /\ Obs.ticks evs
       = [(Np.arange (F := F) (Np.len sizes - 1), (Np.len sizes - 1)%nat)]
    /\ Obs.write_log evs = [Obs.Wrote "sorting_analysis.png"].
Proof.
  intros Hd Hsizes Hbubble Hinsertion Hmerge Hquick Hlb Hli Hlm Hlq Hrun.
  apply faultless_plot_sorting in Hrun.
  assert (Hlen : (0 < Np.len sizes)%nat).
  { destruct (Np.len sizes) as [|n] eqn:En; [|lia]. exfalso.
    destruct (run_plot_sorting_empty data d w sizes bubble insertion merge
                quick [] Hd Hsizes Hbubble Hinsertion Hmerge Hquick En)
      as [evs [Hraise _]].
    rewrite extend_nil in Hraise. congruence. }
  destruct (run_plot_sorting_from data d w sizes bubble insertion merge quick
              [] Hd Hsizes Hbubble Hinsertion Hmerge Hquick Hlen)
    as [evs [Hfree [Hbars [Hticks Hlog]]]].
  rewrite extend_nil in Hfree. change ([] ++ evs) with evs in Hfree.
  exists evs. split; [congruence|]. split; [exact Hrun|]. split; [exact Hlen|].
  split; [exact Hbars|].
  split; [rewrite length_quotients, len_floats, Hlb; lia|].
  split; [rewrite length_quotients, len_floats, Hlm; lia|].
  split; [|exact Hlog].
  now rewrite Hticks, Hlb.
Qed.

Lemma sorting_routine_witness :
  exists evs,
    snd (Script.plot_sorting_comparison (ops := Binary64.arithmetic) 0%nat
           Obs.no_faults (Obs.world_with Obs.own_dataset))
    = Obs.extend (Obs.world_with Obs.own_dataset) evs
    /\ Script.plot_sorting_comparison (ops := Binary64.arithmetic) 0%nat
         Obs.no_faults (Obs.world_with Obs.own_dataset)
       = (Ok tt,
          snd (Script.plot_sorting_comparison (ops := Binary64.arithmetic)
                 0%nat Obs.no_faults (Obs.world_with Obs.own_dataset)))
    /\ (0 < 3)%nat
    /\ Obs.bar_heights evs
       = [Np.FloatArray [12 / 3; 60 / 12]%float;
          Np.FloatArray [2 / 1; 5 / 2]%float]
    /\ length [12 / 3; 60 / 12]%float = 2%nat
    /\ length [2 / 1; 5 / 2]%float = 2%nat
    /\ Obs.ticks evs = [(Np.IntArray [0; 1]%Z, 2%nat)]
    /\ Obs.write_log evs = [Obs.Wrote "sorting_analysis.png"].
Proof.
  exact (sorting_routine_on_even_dataset float Binary64.arithmetic 0%nat
           Obs.own_dataset (Obs.world_with Obs.own_dataset)
           (Np.array [PyInt 100; PyInt 200; PyInt 400])
           (Np.array [PyInt 3; PyInt 12; PyInt 60])
           (Np.array [PyInt 2; PyInt 9; PyInt 40])
           (Np.array [PyInt 1; PyInt 2; PyInt 5])
           (Np.array [PyFloat 5 (-1); PyFloat 15 (-1); PyInt 4])
           Obs.no_faults
           (snd (Script.plot_sorting_comparison 0%nat Obs.no_faults
                   (Obs.world_with Obs.own_dataset)))
           ltac:(vm_compute; reflexivity) ltac:(vm_compute; reflexivity)
           ltac:(vm_compute; reflexivity) ltac:(vm_compute; reflexivity)
           ltac:(vm_compute; reflexivity) ltac:(vm_compute; reflexivity)
           ltac:(vm_compute; reflexivity) ltac:(vm_compute; reflexivity)
           ltac:(vm_compute; reflexivity) ltac:(vm_compute; reflexivity)
           ltac:(vm_compute; reflexivity)).
Defined.

(** X7: a dataset that lacks a key.  The fault-free run of either routine
    raises [KeyError] for the first key it looks up in vain, in the order
    sizes, bubble, insertion, merge, quick for the sorting routine and
    search_sizes, linear, binary for the search routine; no file has been
    written; and under no behaviour of the library does the routine
    return. *)
Theorem missing_key_raises_key_error
  (F : Type) (ops : Float64Ops F) (data : Eff.loc)
  (d : gmap string (Np.ndarray F)) (w : Eff.world F) (key : string) :
  Eff.heap w !! data = Some d ->
  (Obs.first_missing d ["sizes"; "bubble"; "insertion"; "merge"; "quick"]
   = Some key ->
   (exists evs,
       Script.plot_sorting_comparison data Obs.no_faults w
       = (Raise (Exn KeyError key), Obs.extend w evs)
       /\ Obs.write_log evs = [])
   /\ forall e a, fst (Script.plot_sorting_comparison data e w) <> Ok a)
  /\ (Obs.first_missing d ["search_sizes"; "linear"; "binary"] = Some key ->
      (exists evs,
          Script.plot_search_comparison data Obs.no_faults w
          = (Raise (Exn KeyError key), Obs.extend w evs)
          /\ Obs.write_log evs = [])
      /\ forall e a, fst (Script.plot_search_comparison data e w) <> Ok a).
Proof.
  intros Hd. split; intros Hmiss.
  - destruct (run_plot_sorting_missing data d w key [] Hd Hmiss)
      as [evs [Hrun Hlog]].
    rewrite extend_nil in Hrun. split; [now exists evs|].
    exact (never_returns _ _ _ _ (faultless_plot_sorting data) Hrun).
  - destruct (run_plot_search_missing data d w key [] Hd Hmiss)
      as [evs [Hrun Hlog]].
    rewrite extend_nil in Hrun. split; [now exists evs|].
    exact (never_returns _ _ _ _ (faultless_plot_search data) Hrun).
Qed.

Lemma missing_key_witness :
  (exists evs,
      Script.plot_sorting_comparison (ops := Binary64.arithmetic) 0%nat
        Obs.no_faults (Obs.world_with (delete "merge" Script.sample_dict))
      = (Raise (Exn KeyError "merge"),
         Obs.extend (Obs.world_with (delete "merge" Script.sample_dict)) evs)
      /\ Obs.write_log evs = [])
  /\ (exists evs,
        Script.plot_search_comparison (ops := Binary64.arithmetic) 0%nat
          Obs.no_faults (Obs.world_with (delete "linear" Script.sample_dict))
        = (Raise (Exn KeyError "linear"),
           Obs.extend (Obs.world_with (delete "linear" Script.sample_dict))
             evs)
        /\ Obs.write_log evs = []).
Proof.
  split.
  - apply (proj1 (missing_key_raises_key_error float Binary64.arithmetic 0%nat
                    (delete "merge" Script.sample_dict)
                    (Obs.world_with (delete "merge" Script.sample_dict))
                    "merge" ltac:(vm_compute; reflexivity))).
    vm_compute. reflexivity.
  - apply (proj2 (missing_key_raises_key_error float Binary64.arithmetic 0%nat
                    (delete "linear" Script.sample_dict)
                    (Obs.world_with (delete "linear" Script.sample_dict))
                    "linear" ltac:(vm_compute; reflexivity))).
    vm_compute. reflexivity.
Defined.

(** X8: a dataset without measurements.  With the five keys present and
    an empty sizes array, the fault-free run of the sorting routine raises
    [IndexError] at [sizes[0]] on line 73: after the four series of the
    log-log panel have been drawn, before any file is written; and under
    no behaviour of the library does the routine return. *)
Theorem empty_sizes_raise_index_error
  (F : Type) (ops : Float64Ops F) (data : Eff.loc)
  (d : gmap string (Np.ndarray F)) (w : Eff.world F)
  (sizes bubble insertion merge quick : Np.ndarray F) :
  Eff.heap w !! data = Some d ->
  d !! "sizes" = Some sizes -> d !! "bubble" = Some bubble ->
  d !! "insertion" = Some insertion -> d !! "merge" = Some merge ->
  d !! "quick" = Some quick ->
  Np.len sizes = 0%nat ->
  (exists evs,
      Script.plot_sorting_comparison data Obs.no_faults w
      = (Raise (Exn IndexError "index out of bounds"), Obs.extend w evs)
      /\ Obs.write_log evs = []
      /\ Obs.labels "plt.loglog" evs
         = ["Bubble Sort"; "Insertion Sort"; "Merge Sort"; "Quick Sort"])
  /\ forall e a, fst (Script.plot_sorting_comparison data e w) <> Ok a.
Proof.
  intros Hd Hsizes Hbubble Hinsertion Hmerge Hquick Hlen.
  destruct (run_plot_sorting_empty data d w sizes bubble insertion merge
              quick [] Hd Hsizes Hbubble Hinsertion Hmerge Hquick Hlen)
    as [evs [Hrun Hrest]].
  rewrite extend_nil in Hrun. split; [now exists evs|].
  exact (never_returns _ _ _ _ (faultless_plot_sorting data) Hrun).
Qed.

Lemma empty_sizes_witness :
  exists evs,
    Script.plot_sorting_comparison (ops := Binary64.arithmetic) 0%nat
      Obs.no_faults (Obs.world_with Obs.empty_dataset)
    = (Raise (Exn IndexError "index out of bounds"),
       Obs.extend (Obs.world_with Obs.empty_dataset) evs)
    /\ Obs.write_log evs = []
    /\ Obs.labels "plt.loglog" evs
       = ["Bubble Sort"; "Insertion Sort"; "Merge Sort"; "Quick Sort"].
Proof.
  apply (proj1 (empty_sizes_raise_index_error float Binary64.arithmetic 0%nat
                  Obs.empty_dataset (Obs.world_with Obs.empty_dataset)
                  (Np.array []) (Np.array []) (Np.array []) (Np.array [])
                  (Np.array [])
                  ltac:(vm_compute; reflexivity) ltac:(vm_compute; reflexivity)
                  ltac:(vm_compute; reflexivity) ltac:(vm_compute; reflexivity)
                  ltac:(vm_compute; reflexivity) ltac:(vm_compute; reflexivity)
                  ltac:(vm_compute; reflexivity))).
Defined.

(** X9: the search routine on measurements of one's own.  For a dataset
    with the three keys and as many linear and binary timings as sizes,
    every run that returns, whatever the library did on the way, has done
    what the fault-free run does: the curve it draws against the sizes is
    the elementwise quotient of the two timings; it annotates each point
    of that curve, one for each size; and the one file is written. *)
Theorem search_routine_on_even_dataset
  (F : Type) (ops : Float64Ops F) (data : Eff.loc)
  (d : gmap string (Np.ndarray F)) (w : Eff.world F)
  (sizes linear binary : Np.ndarray F)
  (e : Eff.env F) (w' : Eff.world F) :
  Eff.heap w !! data = Some d ->
  d !! "search_sizes" = Some sizes -> d !! "linear" = Some linear ->
  d !! "binary" = Some binary ->
  Np.len linear = Np.len sizes -> Np.len binary = Np.len sizes ->
  Script.plot_search_comparison data e w = (Ok tt, w') ->
  exists evs,
    w' = Obs.extend w evs
    /\ Script.plot_search_comparison data Obs.no_faults w = (Ok tt, w')
    /\ Obs.drawn "plt.plot" "go-" evs
       = [(sizes,
           Np.FloatArray
             (zip_with fdiv (Np.floats linear) (Np.floats binary)))]
    /\ Obs.annotated evs
       = zip (Np.elems sizes)
             (map Np.SFloat
                (zip_with fdiv (Np.floats linear) (Np.floats binary)))
    /\ length (Obs.annotated evs) = Np.len sizes
    /\ Obs.write_log evs = [Obs.Wrote "search_analysis.png"].
Proof.
  intros Hd Hsizes Hlinear Hbinary Hll Hlb Hrun.
  apply faultless_plot_search in Hrun.
  assert (Hlen : Np.len linear = Np.len binary) by congruence.
  destruct (run_plot_search_from data d w sizes linear binary [] Hd Hsizes
              Hlinear Hbinary Hlen) as [evs [Hfree [Hcurve [Hnotes Hlog]]]].
  rewrite extend_nil in Hfree. change ([] ++ evs) with evs in Hfree.
  exists evs. split; [congruence|]. split; [exact Hrun|]. split; [exact Hcurve|].
  split; [exact Hnotes|]. split; [|exact Hlog].
  rewrite Hnotes, length_zip, length_map, length_zip_with, !len_floats.
  unfold Np.len in *. lia.
Qed.

Lemma search_routine_witness :
  exists evs,
    snd (Script.plot_search_comparison (ops := Binary64.arithmetic) 0%nat
           Obs.no_faults (Obs.world_with Obs.own_dataset))
    = Obs.extend (Obs.world_with Obs.own_dataset) evs
    /\ Script.plot_search_comparison (ops := Binary64.arithmetic) 0%nat
         Obs.no_faults (Obs.world_with Obs.own_dataset)
       = (Ok tt,
          snd (Script.plot_search_comparison (ops := Binary64.arithmetic)
                 0%nat Obs.no_faults (Obs.world_with Obs.own_dataset)))
    /\ Obs.drawn "plt.plot" "go-" evs
       = [(Np.IntArray [100; 200; 400]%Z,
           Np.FloatArray [0.8 / 0.01; 4.2 / 0.015; 8.5 / 0.018]%float)]
    /\ Obs.annotated evs
       = [(Np.SInt 100, Np.SFloat (0.8 / 0.01)%float);
          (Np.SInt 200, Np.SFloat (4.2 / 0.015)%float);
          (Np.SInt 400, Np.SFloat (8.5 / 0.018)%float)]
    /\ length (Obs.annotated evs) = 3%nat
    /\ Obs.write_log evs = [Obs.Wrote "search_analysis.png"].
Proof.
  exact (search_routine_on_even_dataset float Binary64.arithmetic 0%nat
           Obs.own_dataset (Obs.world_with Obs.own_dataset)
           (Np.array [PyInt 100; PyInt 200; PyInt 400])
           (Np.array [PyFloat 8 (-1); PyFloat 42 (-1); PyFloat 85 (-1)])
           (Np.array [PyFloat 1 (-2); PyFloat 15 (-3); PyFloat 18 (-3)])
           Obs.no_faults
           (snd (Script.plot_search_comparison 0%nat Obs.no_faults
                   (Obs.world_with Obs.own_dataset)))
           ltac:(vm_compute; reflexivity) ltac:(vm_compute; reflexivity)
           ltac:(vm_compute; reflexivity) ltac:(vm_compute; reflexivity)
           ltac:(vm_compute; reflexivity) ltac:(vm_compute; reflexivity)
           ltac:(vm_compute; reflexivity)).
Defined.



End OwnData.

(** X12: the reference chart, like the recursion routine, has no
    parameter and does not read the heap: from two worlds that differ in
    their objects and agree on what has been done so far it ends the same
    way and draws the same things, and it leaves the objects alone. *)
Theorem cheatsheet_ignores_dataset
  (F : Type) (ops : Float64Ops F) (e : Eff.env F) (w1 w2 : Eff.world F) :
  Eff.trace w1 = Eff.trace w2 ->
  fst (Script.create_complexity_cheatsheet e w1)
  = fst (Script.create_complexity_cheatsheet e w2)
  /\ Eff.trace (snd (Script.create_complexity_cheatsheet e w1))
     = Eff.trace (snd (Script.create_complexity_cheatsheet e w2))
  /\ Eff.heap (snd (Script.create_complexity_cheatsheet e w1)) = Eff.heap w1
  /\ Eff.heap (snd (Script.create_complexity_cheatsheet e w2)) = Eff.heap w2.
Proof.
  intros Htr.
  destruct (heap_blind_cheatsheet e w1 w2 Htr) as [Hres Htr'].
  repeat split; try assumption; apply preserves_heap_cheatsheet.
Qed.

Lemma cheatsheet_ignores_dataset_witness :
  fst (Script.create_complexity_cheatsheet (ops := Binary64.arithmetic)
         Obs.no_faults Script.initial_world)
  = fst (Script.create_complexity_cheatsheet (ops := Binary64.arithmetic)
           Obs.no_faults
           (Obs.world_with (Script.sample_dict (ops := Binary64.arithmetic)))).
Proof.
  apply (cheatsheet_ignores_dataset float Binary64.arithmetic Obs.no_faults
           Script.initial_world
           (Obs.world_with (Script.sample_dict (ops := Binary64.arithmetic)))).
  reflexivity.
Defined.
